(** * CONTES word-embedding command line tool: [module_word2vec/main_word2vec.py]

    A shallow embedding of the orchestration code of [main_word2vec.py]
    (class [Word2Vec]): option parsing, the corpus reader, the trainer
    dispatcher [buildVector] and the three output writers, together with
    the properties of the natural-language specification.

    Conventions of the embedding.
    - A Python [str] is a [string] whose characters are the code points
      below 256; [isspace] and [lower] are the interpreter's on that range.
    - Methods of [Word2Vec] are computations in a state-and-exception monad
      [M] over the fields of [self] and the observable input/output.
    - The gensim / fastText / numpy library calls are the operations of the
      class [Gensim]; nothing is assumed about what they return. The run
      of the external fastText tool is recorded with the files it touches.
    - The interpreter is Python 3 on POSIX: [sys.stdin] splits its lines at
      line feeds only, [int] refuses decimal numerals of more than 4300
      digits, and output is buffered, so that a device failure can surface
      in [f.write] or in [f.close()]. *)

From Stdlib Require Import List String Ascii ZArith Bool Arith Lia.
Import ListNotations.
Open Scope string_scope.
Open Scope list_scope.
Open Scope nat_scope.

(** ** Python text primitives *)

Module Py.

(** [str.isspace] for one character: TAB..CR, FS..US, space, NEL, NBSP. *)
Definition isspace (c : ascii) : bool :=
  let n := nat_of_ascii c in
  ((9 <=? n) && (n <=? 13)) || ((28 <=? n) && (n <=? 32))
  || (n =? 133) || (n =? 160).

(** [s.lstrip()] *)
Fixpoint lstrip (s : string) : string :=
  match s with
  | EmptyString => EmptyString
  | String c r => if isspace c then lstrip r else s
  end.

(** [s.rstrip()] *)
Fixpoint rstrip (s : string) : string :=
  match s with
  | EmptyString => EmptyString
  | String c r =>
      match rstrip r with
      | EmptyString => if isspace c then EmptyString else String c EmptyString
      | r' => String c r'
      end
  end.

(** [s.strip()] *)
Definition strip (s : string) : string := rstrip (lstrip s).

(** [str.lower] for one character: A-Z and the upper-case letters of the
    Latin-1 supplement (U+00C0..U+00DE but the multiplication sign). *)
Definition lower_char (c : ascii) : ascii :=
  let n := nat_of_ascii c in
  if ((65 <=? n) && (n <=? 90))
     || ((192 <=? n) && (n <=? 222) && negb (n =? 215))
  then ascii_of_nat (n + 32) else c.

(** [s.lower()] *)
Fixpoint lower (s : string) : string :=
  match s with
  | EmptyString => EmptyString
  | String c r => String (lower_char c) (lower r)
  end.

(** [s.startswith(p)] *)
Definition startswith (s p : string) : bool := String.prefix p s.

(** [sub in s] *)
Fixpoint contains (sub s : string) : bool :=
  if String.prefix sub s then true
  else match s with
       | EmptyString => false
       | String _ r => contains sub r
       end.

(** [s.endswith(p)] *)
Definition endswith (s p : string) : bool :=
  let ls := String.length s in
  let lp := String.length p in
  (lp <=? ls) && String.eqb (String.substring (ls - lp) lp s) p.

(** [sep.join(l)] *)
Fixpoint join (sep : string) (l : list string) : string :=
  match l with
  | [] => ""
  | [x] => x
  | x :: r => String.append x (String.append sep (join sep r))
  end.

Definition LF : ascii := ascii_of_nat 10.
Definition CR : ascii := ascii_of_nat 13.
Definition TAB : ascii := ascii_of_nat 9.

(** Iterating a file opened in text mode with the default [newline=None]:
    the lines of the text, each with its terminator; ["\n"], ["\r"] and
    ["\r\n"] all end a line and are delivered as ["\n"]. *)
Fixpoint readlines (s : string) : list string :=
  match s with
  | EmptyString => []
  | String c r =>
      if Ascii.eqb c LF then String LF "" :: readlines r
      else if Ascii.eqb c CR then
        match r with
        | String c' r' =>
            if Ascii.eqb c' LF then String LF "" :: readlines r'
            else String LF "" :: readlines r
        | EmptyString => [String LF ""]
        end
      else
        match readlines r with
        | [] => [String c ""]
        | l :: ls => String c l :: ls
        end
  end.

(** Iterating a text stream opened with [newline="\n"], as [sys.stdin] is
    on POSIX: only a line feed ends a line, and nothing is translated; a
    carriage return stays in its line. *)
Fixpoint readlines_lf (s : string) : list string :=
  match s with
  | EmptyString => []
  | String c r =>
      if Ascii.eqb c LF then String LF "" :: readlines_lf r
      else
        match readlines_lf r with
        | [] => [String c ""]
        | l :: ls => String c l :: ls
        end
  end.

(** Whitespace skipped by [int(str, base)] around the number. *)
Definition isspace_int (c : ascii) : bool :=
  let n := nat_of_ascii c in
  ((9 <=? n) && (n <=? 13)) || (n =? 32) || (n =? 133) || (n =? 160).

Fixpoint skip_space (s : string) : string :=
  match s with
  | EmptyString => EmptyString
  | String c r => if isspace_int c then skip_space r else s
  end.

(** Value of a character as a digit: 0-9, then a-z and A-Z for 10..35. *)
Definition digit_value (c : ascii) : option Z :=
  let n := nat_of_ascii c in
  if (48 <=? n) && (n <=? 57) then Some (Z.of_nat (n - 48))
  else if (97 <=? n) && (n <=? 122) then Some (Z.of_nat (n - 87))
  else if (65 <=? n) && (n <=? 90) then Some (Z.of_nat (n - 55))
  else None.

Definition is_digit (radix : Z) (c : ascii) : bool :=
  match digit_value c with
  | Some d => (d <? radix)%Z
  | None => false
  end.

(** The digits of a number: single underscores may separate digits; the
    scan stops at the first character that is neither. Returns the value
    and the unread rest, or [None] for a doubled or trailing underscore. *)
Fixpoint scan_digits (radix acc : Z) (prev_underscore : bool) (s : string)
  : option (Z * string) :=
  let finish := if prev_underscore then None else Some (acc, s) in
  match s with
  | EmptyString => finish
  | String c r =>
      if Ascii.eqb c "_" then
        if prev_underscore then None else scan_digits radix acc true r
      else
        match digit_value c with
        | Some d =>
            if (d <? radix)%Z
            then scan_digits radix (acc * radix + d)%Z false r
            else finish
        | None => finish
        end
  end.

(** After the sign: [0x], [0o] or [0b] (either case) when it is the prefix
    of the base asked for. *)
Definition has_base_prefix (radix : Z) (s : string) : bool :=
  match s with
  | String "0" (String c _) =>
      ((radix =? 16)%Z && (Ascii.eqb c "x" || Ascii.eqb c "X"))
      || ((radix =? 8)%Z && (Ascii.eqb c "o" || Ascii.eqb c "O"))
      || ((radix =? 2)%Z && (Ascii.eqb c "b" || Ascii.eqb c "B"))
  | _ => false
  end.

Definition drop (n : nat) (s : string) : string :=
  String.substring n (String.length s - n) s.

(** The interpreter's bound on the number of digits of a numeral in a base
    that is not a power of two ([sys.int_info.default_max_str_digits]). *)
Definition int_max_str_digits : nat := 4300.

Definition power_of_two (radix : Z) : bool :=
  (radix =? 2)%Z || (radix =? 4)%Z || (radix =? 8)%Z || (radix =? 16)%Z
  || (radix =? 32)%Z.

(** The number of digits the scan reads: underscores are not counted,
    leading zeros are. *)
Fixpoint count_digits (radix : Z) (s : string) : nat :=
  match s with
  | EmptyString => 0
  | String c r =>
      if Ascii.eqb c "_" then count_digits radix r
      else if is_digit radix c then S (count_digits radix r)
      else 0
  end.

(** [int(s, radix)] for a [str] and a radix among 2, 8, 10, 16; [None] is
    [ValueError]. In base 10 a numeral of more than [int_max_str_digits]
    digits is refused. *)
Definition int (s : string) (radix : Z) : option Z :=
  let s := skip_space s in
  let '(sign, s) :=
    match s with
    | String "+" r => (1%Z, r)
    | String "-" r => ((-1)%Z, r)
    | _ => (1%Z, s)
    end in
  let s :=
    if has_base_prefix radix s then
      match drop 2 s with
      | String "_" r => r
      | r => r
      end
    else s in
  match s with
  | EmptyString => None
  | String c _ =>
      if is_digit radix c then
        match scan_digits radix 0 false s with
        | Some (v, rest) =>
            if negb (power_of_two radix)
               && (int_max_str_digits <? count_digits radix s)
            then None
            else
              match skip_space rest with
              | EmptyString => Some (sign * v)%Z
              | _ => None
              end
        | None => None
        end
      else None
  end.

End Py.

(** ** The corpus reader, [Word2Vec.readCorpus] (loop body) *)

Abbreviation Sentence := (list string) (only parsing).
Abbreviation Corpus := (list (list string)) (only parsing).

(** One iteration of [for line in f] in [readCorpus]: the state is
    [(self.corpus, current_sentence)]. *)
Definition readCorpus_step (st : Corpus * Sentence) (line : string)
  : Corpus * Sentence :=
  let '(corpus, current_sentence) := st in
  let line := Py.strip line in
  if String.eqb line "" then
    if 0 <? List.length current_sentence
    then (corpus ++ [current_sentence], [])
    else (corpus, current_sentence)
  else (corpus, current_sentence ++ [line]).

(** The whole loop over the lines the file delivers. *)
Definition readCorpus_loop (lines : list string) (st : Corpus * Sentence)
  : Corpus * Sentence :=
  fold_left readCorpus_step lines st.

(** The statement after the loop: a sentence in progress is appended. *)
Definition readCorpus_flush (st : Corpus * Sentence) : Corpus :=
  let '(corpus, current_sentence) := st in
  if 0 <? List.length current_sentence
  then corpus ++ [current_sentence]
  else corpus.

(** [readCorpus] on a file that is read to its end without error. *)
Definition readCorpus_lines (lines : list string) (corpus : Corpus) : Corpus :=
  readCorpus_flush (readCorpus_loop lines (corpus, [])).

(** String literals with control characters: [s +n+ t] is [s], a line feed,
    then [t]. *)
Notation "s +n+ t" := (String.append s (String Py.LF t))
  (at level 60, right associativity).

(** String literals with control characters: [s +n+ t] is [s], a line feed,
    then [t]. *)
Notation "s +n+ t" := (String.append s (String Py.LF t))
  (at level 60, right associativity).

(** ** Exceptions *)

Inductive pyerr : Type :=
| AttributeError (attr : string)   (* [self.attr] read before it was set *)
| TypeError (msg : string)
| OSError (path : string)          (* [open] failed *)
| ReadError (msg : string)         (* raised while iterating a file *)
| LibraryError (msg : string)      (* raised inside gensim / fastText *)
| SystemExit (code : Z).

(** ** The option parser, [Word2Vec.__init__] and [OptionParser.parse_args] *)

(** The values object [parse_args] returns: one field per [dest]. *)
Module Options.
Record t : Type := mk {
  json : option string;
  txt : option string;
  bin : option string;
  minCount : Z;
  vectSize : Z;
  workerNum : Z;
  skipGram : bool;
  windowSize : Z;
  numIteration : Z;
  seed : Z;
  method : option string;
  minNgram : Z;
  maxNgram : Z;
  bucket : Z;
  fastTextHome : option Z
}.

(** The [default=] of every [add_option]; [None] where there is none. *)
Definition defaults : t :=
  mk None None None 0 300 2 false 2 5 1 None 3 6 2000000 None.

Definition set_json v (o : t) := mk (Some v) (txt o) (bin o) (minCount o) (vectSize o) (workerNum o) (skipGram o) (windowSize o) (numIteration o) (seed o) (method o) (minNgram o) (maxNgram o) (bucket o) (fastTextHome o).
Definition set_txt v (o : t) := mk (json o) (Some v) (bin o) (minCount o) (vectSize o) (workerNum o) (skipGram o) (windowSize o) (numIteration o) (seed o) (method o) (minNgram o) (maxNgram o) (bucket o) (fastTextHome o).
Definition set_bin v (o : t) := mk (json o) (txt o) (Some v) (minCount o) (vectSize o) (workerNum o) (skipGram o) (windowSize o) (numIteration o) (seed o) (method o) (minNgram o) (maxNgram o) (bucket o) (fastTextHome o).
Definition set_minCount v (o : t) := mk (json o) (txt o) (bin o) v (vectSize o) (workerNum o) (skipGram o) (windowSize o) (numIteration o) (seed o) (method o) (minNgram o) (maxNgram o) (bucket o) (fastTextHome o).
Definition set_vectSize v (o : t) := mk (json o) (txt o) (bin o) (minCount o) v (workerNum o) (skipGram o) (windowSize o) (numIteration o) (seed o) (method o) (minNgram o) (maxNgram o) (bucket o) (fastTextHome o).
Definition set_workerNum v (o : t) := mk (json o) (txt o) (bin o) (minCount o) (vectSize o) v (skipGram o) (windowSize o) (numIteration o) (seed o) (method o) (minNgram o) (maxNgram o) (bucket o) (fastTextHome o).
Definition set_skipGram (o : t) := mk (json o) (txt o) (bin o) (minCount o) (vectSize o) (workerNum o) true (windowSize o) (numIteration o) (seed o) (method o) (minNgram o) (maxNgram o) (bucket o) (fastTextHome o).
Definition set_windowSize v (o : t) := mk (json o) (txt o) (bin o) (minCount o) (vectSize o) (workerNum o) (skipGram o) v (numIteration o) (seed o) (method o) (minNgram o) (maxNgram o) (bucket o) (fastTextHome o).
Definition set_numIteration v (o : t) := mk (json o) (txt o) (bin o) (minCount o) (vectSize o) (workerNum o) (skipGram o) (windowSize o) v (seed o) (method o) (minNgram o) (maxNgram o) (bucket o) (fastTextHome o).
Definition set_seed v (o : t) := mk (json o) (txt o) (bin o) (minCount o) (vectSize o) (workerNum o) (skipGram o) (windowSize o) (numIteration o) v (method o) (minNgram o) (maxNgram o) (bucket o) (fastTextHome o).
Definition set_method v (o : t) := mk (json o) (txt o) (bin o) (minCount o) (vectSize o) (workerNum o) (skipGram o) (windowSize o) (numIteration o) (seed o) (Some v) (minNgram o) (maxNgram o) (bucket o) (fastTextHome o).
Definition set_minNgram v (o : t) := mk (json o) (txt o) (bin o) (minCount o) (vectSize o) (workerNum o) (skipGram o) (windowSize o) (numIteration o) (seed o) (method o) v (maxNgram o) (bucket o) (fastTextHome o).
Definition set_maxNgram v (o : t) := mk (json o) (txt o) (bin o) (minCount o) (vectSize o) (workerNum o) (skipGram o) (windowSize o) (numIteration o) (seed o) (method o) (minNgram o) v (bucket o) (fastTextHome o).
Definition set_bucket v (o : t) := mk (json o) (txt o) (bin o) (minCount o) (vectSize o) (workerNum o) (skipGram o) (windowSize o) (numIteration o) (seed o) (method o) (minNgram o) (maxNgram o) v (fastTextHome o).
Definition set_fastTextHome v (o : t) := mk (json o) (txt o) (bin o) (minCount o) (vectSize o) (workerNum o) (skipGram o) (windowSize o) (numIteration o) (seed o) (method o) (minNgram o) (maxNgram o) (bucket o) (Some v).
End Options.

Module OptParse.

(** [action=] and [type=] of an option, with the [dest] it stores to. *)
Inductive action : Type :=
| store_string (dest : string -> Options.t -> Options.t)
| store_int (dest : Z -> Options.t -> Options.t)
| store_true (dest : Options.t -> Options.t)
| help.

(** The parser's long options: [--help], which [OptionParser.__init__]
    adds, then the [add_option] calls of [Word2Vec.__init__] in order. *)
Definition option_list : list (string * action) :=
  [ ("--help", help);
    ("--json", store_string Options.set_json);
    ("--txt", store_string Options.set_txt);
    ("--bin", store_string Options.set_bin);
    ("--min-count", store_int Options.set_minCount);
    ("--vector-size", store_int Options.set_vectSize);
    ("--workers", store_int Options.set_workerNum);
    ("--skip-gram", store_true Options.set_skipGram);
    ("--window-size", store_int Options.set_windowSize);
    ("--iterations", store_int Options.set_numIteration);
    ("--seed", store_int Options.set_seed);
    ("--method", store_string Options.set_method);
    ("--minNgram", store_int Options.set_minNgram);
    ("--maxNgram", store_int Options.set_maxNgram);
    ("--bucket", store_int Options.set_bucket);
    ("--fastTextHome", store_int Options.set_fastTextHome) ].

(** [optparse._parse_int]: the radix is read off the first characters. *)
Definition _parse_int (val : string) : option Z :=
  let p2 := Py.lower (String.substring 0 2 val) in
  if String.eqb p2 "0x" then Py.int val 16
  else if String.eqb p2 "0b" then
    let v := Py.drop 2 val in
    Py.int (if String.eqb v "" then "0" else v) 2
  else if String.eqb (String.substring 0 1 val) "0" then Py.int val 8
  else Py.int val 10.

(** [optparse._match_abbrev]: the option named [s], or the only one [s]
    is a prefix of. *)
Definition _match_abbrev (s : string) : option action :=
  match find (fun o => String.eqb (fst o) s) option_list with
  | Some o => Some (snd o)
  | None =>
      match filter (fun o => String.prefix s (fst o)) option_list with
      | [o] => Some (snd o)
      | _ => None
      end
  end.

(** [arg.split("=", 1)]: what is before the first ["="], and what is after
    it when there is one. *)
Fixpoint split_eq (arg : string) : string * option string :=
  match arg with
  | EmptyString => (EmptyString, None)
  | String c r =>
      if Ascii.eqb c "=" then (EmptyString, Some r)
      else let '(o, v) := split_eq r in (String c o, v)
  end.

(** [Option.process] for an option that takes a value: conversion by the
    option's type, then the store. [None] is [OptionValueError]. *)
Definition store (a : action) (value : string) (values : Options.t)
  : option Options.t :=
  match a with
  | store_string dest => Some (dest value values)
  | store_int dest =>
      match _parse_int value with
      | Some z => Some (dest z values)
      | None => None
      end
  | _ => None
  end.

(** [OptionParser._process_args] with interspersed arguments allowed.
    [error()] exits with status 2, the help option with status 0. The
    result is the values and [largs + rargs]. *)
Fixpoint _process_args (rargs largs : list string) (values : Options.t)
  {struct rargs} : pyerr + (Options.t * list string) :=
  match rargs with
  | [] => inr (values, largs)
  | arg :: rest =>
      if String.eqb arg "--" then inr (values, largs ++ rest)
      else if String.prefix "--" arg then
        let '(opt, explicit) := split_eq arg in
        match _match_abbrev opt with
        | None => inl (SystemExit 2)
        | Some help =>
            match explicit with
            | Some _ => inl (SystemExit 2)
            | None => inl (SystemExit 0)
            end
        | Some (store_true dest) =>
            match explicit with
            | Some _ => inl (SystemExit 2)
            | None => _process_args rest largs (dest values)
            end
        | Some a =>
            match explicit with
            | Some value =>
                match store a value values with
                | Some values' => _process_args rest largs values'
                | None => inl (SystemExit 2)
                end
            | None =>
                match rest with
                | value :: rest' =>
                    match store a value values with
                    | Some values' => _process_args rest' largs values'
                    | None => inl (SystemExit 2)
                    end
                | [] => inl (SystemExit 2)
                end
            end
        end
      else if String.prefix "-" arg && (1 <? String.length arg) then
        (* a cluster of short options: only [-h] exists *)
        if String.prefix "-h" arg then inl (SystemExit 0)
        else inl (SystemExit 2)
      else _process_args rest (largs ++ [arg]) values
  end.

(** [parse_args()] on the process arguments (without the program name). *)
Definition parse_args (argv : list string) : pyerr + (Options.t * list string) :=
  _process_args argv [] Options.defaults.

End OptParse.

(** ** The external libraries *)

(** Keyword arguments of [gensim.models.Word2Vec(self.corpus, ...)]. *)
Record Word2VecArgs (float : Type) : Type := {
  w_min_count : Z; w_size : Z; w_workers : Z; w_sg : bool; w_window : Z;
  w_alpha : float; w_iter : Z; w_negative : Z; w_sample : float; w_seed : Z
}.

(** Keyword arguments of [FastText(...)] (gensim.models.fasttext). *)
Record FastTextArgs (float : Type) : Type := {
  f_size : Z; f_sg : bool; f_window : Z; f_min_count : Z; f_iter : Z;
  f_negative : Z; f_alpha : float; f_min_n : Z; f_max_n : Z; f_bucket : Z;
  f_workers : Z
}.

(** Keyword arguments of [FastText_OPT.train(...)] (the wrapper of the
    external tool); [corpus_file] is [self.corpus]. *)
Record FastTextOptArgs (float : Type) : Type := {
  t_ft_path : option Z; t_corpus_file : Corpus; t_model : string; t_size : Z;
  t_alpha : float; t_window : Z; t_min_count : Z; t_negative : Z; t_iter : Z;
  t_min_n : Z; t_max_n : Z; t_threads : Z
}.

Arguments Build_Word2VecArgs {float}.
Arguments Build_FastTextArgs {float}.
Arguments Build_FastTextOptArgs {float}.

(** What the program calls in gensim, fastText, numpy and the interpreter's
    float type. A call that can raise returns [inl]. A model object that a
    method mutates is returned updated. *)
Class Gensim : Type := {
  float : Type;
  Model : Type;
  float_0_05 : float;                       (* the literal [0.05] *)
  float_0_001 : float;                      (* the literal [0.001] *)
  Word2Vec_init : Corpus -> Word2VecArgs float -> pyerr + Model;
  FastText_init : FastTextArgs float -> pyerr + Model;
  build_vocab : Model -> Corpus -> pyerr + Model;
  (* [m.train(sentences, total_examples=m.corpus_count, epochs=m.epochs,
     threads)] *)
  train : Model -> Corpus -> Z -> pyerr + Model;
  (* [FastText_OPT.train(...)]: the wrapper runs the external tool as a
     subprocess; the files the tool and the wrapper read and write during
     the call, and what the call returns *)
  FastText_OPT_files : FastTextOptArgs float -> list string;
  FastText_OPT_train : FastTextOptArgs float -> pyerr + Model;
  wv_vocab_keys : Model -> list string;     (* [m.wv.vocab.keys()] *)
  wv_getitem : Model -> string -> pyerr + list float;   (* [m.wv[k]] *)
  numpy_float_ : float -> float;
  save : Model -> string -> pyerr + unit;   (* [m.save(fileName)] *)
  float_repr : float -> string;             (* [float.__repr__], for json *)
  numpy_repr : float -> string              (* [repr] of a [numpy.float_] *)
}.

(** ** Files and the process environment *)

(** A text file: the text the reader delivers, and the error raised after
    it if reading fails (input/output or decoding). *)
Record TextFile : Type := {
  text : string;
  failure : option pyerr
}.

(** A file that is read to its end without error. *)
Definition readable (s : string) : TextFile := {| text := s; failure := None |}.

(** How an output file was opened: [open(fileName, 'w')] is a text file,
    [gzip.open(fileName, 'w')] a binary one. *)
Inductive mode : Type := TextMode | GzipMode.

(** What is passed to [f.write]: a [str] or a [bytes]. *)
Inductive data : Type :=
| Str (s : string)
| Bytes (b : string).

(** An open file object. *)
Record FileObj : Type := {
  handle : nat;
  f_name : string;
  f_output : bool;                          (* opened for writing *)
  f_mode : mode;
  f_lines : list string;                    (* what iteration delivers *)
  f_failure : option pyerr                  (* raised after the lines *)
}.

(** What the process does to the file system, in order. An open is
    recorded with its outcome: the handle, or [None] when it fails. The
    last event is not an operation of the program's own code: it is the
    run of the external tool, with the files it touches. *)
Inductive event : Type :=
| EvOpenRead (path : string) (h : option nat)
| EvOpenWrite (path : string) (m : mode) (h : option nat)
| EvWrite (h : nat) (d : data)
| EvClose (h : nat)
| EvSave (path : string)
| EvExternal (paths : list string).

(** The process environment. *)
Record Env : Type := {
  argv : list string;                       (* [sys.argv[1:]] *)
  stdin : TextFile;
  files : string -> option TextFile;        (* what [open(fn)] finds *)
  writable : string -> bool;                (* whether [open(fn, 'w')] succeeds *)
  (* whether the next [f.write] raises [OSError] (the buffer is flushed
     and the device refuses the data), given what the process did so far *)
  write_fails : list event -> bool;
  (* whether [f.close()] on an output file raises [OSError] (buffered data
     cannot be flushed: what was written to a small file reaches the
     device only here), given what the process did so far *)
  close_fails : list event -> bool
}.

(** The vector space of terms: a [dict] in insertion order. *)
Definition Vst (float : Type) : Type := list (string * list float).

(** [dict(pairs)]: a later pair with a key already present replaces the
    value and keeps the key's place. *)
Fixpoint dict_set {V : Type} (d : list (string * V)) (k : string) (v : V)
  : list (string * V) :=
  match d with
  | [] => [(k, v)]
  | (k', v') :: r =>
      if String.eqb k' k then (k', v) :: r else (k', v') :: dict_set r k v
  end.

Definition dict {V : Type} (pairs : list (string * V)) : list (string * V) :=
  fold_left (fun d kv => dict_set d (fst kv) (snd kv)) pairs [].

(** ** JSON and text renditions *)

Module Json.

Definition hex_digit (n : nat) : ascii :=
  if n <? 10 then ascii_of_nat (48 + n) else ascii_of_nat (87 + n).

Definition quote : string := String (ascii_of_nat 34) "".

(** One character of a string under [ensure_ascii=True]. *)
Definition escape_char (c : ascii) : string :=
  let n := nat_of_ascii c in
  if n =? 34 then String "\" quote
  else if n =? 92 then "\\"
  else if n =? 10 then "\n"
  else if n =? 13 then "\r"
  else if n =? 9 then "\t"
  else if n =? 8 then "\b"
  else if n =? 12 then "\f"
  else if (32 <=? n) && (n <=? 126) then String c ""
  else String.append "\u00"
         (String (hex_digit (n / 16)) (String (hex_digit (n mod 16)) "")).

Fixpoint escape (s : string) : string :=
  match s with
  | EmptyString => EmptyString
  | String c r => String.append (escape_char c) (escape r)
  end.

(** [json.dumps] of a [str]. *)
Definition dumps_str (s : string) : string :=
  String.append quote (String.append (escape s) quote).

End Json.

(** The parameters of [buildVector]. *)
Module Args.
Record t (float : Type) : Type := mk {
  workerNum : Z;
  minCount : Z;
  vectSize : Z;
  skipGram : bool;
  windowSize : Z;
  learningRate : float;
  numIteration : Z;
  negativeSampling : Z;
  subSampling : float;
  seed : Z;
  method : option string;
  minNgram : Z;
  maxNgram : Z;
  bucket : Z;
  fastTextHome : option Z
}.
Arguments mk {float}.
Arguments workerNum {float}.
Arguments minCount {float}.
Arguments vectSize {float}.
Arguments skipGram {float}.
Arguments windowSize {float}.
Arguments learningRate {float}.
Arguments numIteration {float}.
Arguments negativeSampling {float}.
Arguments subSampling {float}.
Arguments seed {float}.
Arguments method {float}.
Arguments minNgram {float}.
Arguments maxNgram {float}.
Arguments bucket {float}.
Arguments fastTextHome {float}.
End Args.

(** ** The object [self] and the monad of its methods *)

Section Program.

Context {G : Gensim}.

(** The attributes of the [Word2Vec] instance the methods use, and the
    process around it. [vst_model] and [VST] do not exist until
    [buildVector] assigns them: [None]. *)
Record State : Type := mkState {
  env : Env;
  corpus : Corpus;                          (* [self.corpus] *)
  vst_model : option Model;                 (* [self.vst_model] *)
  VST : option (Vst float);                 (* [self.VST] *)
  stderr : list string;                     (* lines printed to [sys.stderr] *)
  next_handle : nat;
  open_handles : list nat;                  (* file objects not closed yet *)
  trace : list event
}.

(** [Word2Vec()] in a fresh process: [self.corpus = []]; the handles 0, 1
    and 2 are the standard streams. *)
Definition init (e : Env) : State :=
  mkState e [] None None [] 3 [] [].

Definition set_corpus (c : Corpus) (s : State) : State :=
  mkState (env s) c (vst_model s) (VST s) (stderr s) (next_handle s)
          (open_handles s) (trace s).
Definition set_vst_model (m : Model) (s : State) : State :=
  mkState (env s) (corpus s) (Some m) (VST s) (stderr s) (next_handle s)
          (open_handles s) (trace s).
Definition set_VST (v : Vst float) (s : State) : State :=
  mkState (env s) (corpus s) (vst_model s) (Some v) (stderr s) (next_handle s)
          (open_handles s) (trace s).
Definition add_stderr (msg : string) (s : State) : State :=
  mkState (env s) (corpus s) (vst_model s) (VST s) (stderr s ++ [msg])
          (next_handle s) (open_handles s) (trace s).
Definition add_event (ev : event) (s : State) : State :=
  mkState (env s) (corpus s) (vst_model s) (VST s) (stderr s) (next_handle s)
          (open_handles s) (trace s ++ [ev]).
(** A new file object: the next handle, now open. *)
Definition alloc_handle (s : State) : State :=
  mkState (env s) (corpus s) (vst_model s) (VST s) (stderr s)
          (S (next_handle s)) (next_handle s :: open_handles s) (trace s).
Definition release_handle (h : nat) (s : State) : State :=
  mkState (env s) (corpus s) (vst_model s) (VST s) (stderr s) (next_handle s)
          (List.remove Nat.eq_dec h (open_handles s)) (trace s).

(** A method body: it ends with a value or an exception, and a state. *)
Definition M (A : Type) : Type := State -> (pyerr + A) * State.

Definition ret {A} (a : A) : M A := fun s => (inr a, s).
Definition raise {A} (e : pyerr) : M A := fun s => (inl e, s).
Definition bind {A B} (c : M A) (k : A -> M B) : M B :=
  fun s =>
    match c s with
    | (inr a, s') => k a s'
    | (inl e, s') => (inl e, s')
    end.
Definition get : M State := fun s => (inr s, s).
Definition modify (f : State -> State) : M unit := fun s => (inr tt, f s).
(** The result of a library call. *)
Definition lift {A} (r : pyerr + A) : M A :=
  match r with
  | inr a => ret a
  | inl e => raise e
  end.

Notation "x <- c ;; k" := (bind c (fun x => k))
  (at level 61, c at next level, right associativity).
Notation "c ;; k" := (bind c (fun _ => k))
  (at level 61, right associativity).

(** [for x in l: body x] *)
Fixpoint for_each {A} (l : list A) (body : A -> M unit) : M unit :=
  match l with
  | [] => ret tt
  | x :: r => body x ;; for_each r body
  end.

(** [if c: body] *)
Definition when (c : bool) (body : M unit) : M unit :=
  if c then body else ret tt.

(** *** Built-ins with an effect *)

(** [print(msg, file=sys.stderr)]. ([logging.info] writes nothing: the
    root logger is left at its default level.) *)
Definition print_stderr (msg : string) : M unit := modify (add_stderr msg).

(** [open(fn)]: a text file for reading. *)
Definition open_read (fn : string) : M FileObj :=
  s <- get ;;
  match files (env s) fn with
  | None =>
      modify (add_event (EvOpenRead fn None)) ;;
      raise (OSError fn)
  | Some tf =>
      let h := next_handle s in
      modify (fun s => add_event (EvOpenRead fn (Some h)) (alloc_handle s)) ;;
      ret {| handle := h; f_name := fn; f_output := false; f_mode := TextMode;
             f_lines := Py.readlines (text tf); f_failure := failure tf |}
  end.

(** [open(fn, 'w')] and [gzip.open(fn, 'w')]. *)
Definition open_write (fn : string) (m : mode) : M FileObj :=
  s <- get ;;
  if writable (env s) fn then
    let h := next_handle s in
    modify (fun s => add_event (EvOpenWrite fn m (Some h)) (alloc_handle s)) ;;
    ret {| handle := h; f_name := fn; f_output := true; f_mode := m;
           f_lines := []; f_failure := None |}
  else
    modify (add_event (EvOpenWrite fn m None)) ;;
    raise (OSError fn).

(** [f.write(d)]: a text file takes a [str], a gzip file takes [bytes];
    then the write itself can fail, and the file stays open. *)
Definition write (f : FileObj) (d : data) : M unit :=
  match f_mode f, d with
  | TextMode, Str _ | GzipMode, Bytes _ =>
      s <- get ;;
      if write_fails (env s) (trace s) then raise (OSError (f_name f))
      else modify (add_event (EvWrite (handle f) d))
  | TextMode, Bytes _ =>
      raise (TypeError "write() argument must be str, not bytes")
  | GzipMode, Str _ =>
      raise (TypeError "a bytes-like object is required, not 'str'")
  end.

(** [f.close()]: the file object is closed in every case; on an output
    file the data still buffered is flushed first, and when that fails the
    call raises after the file was closed. *)
Definition close (f : FileObj) : M unit :=
  s <- get ;;
  modify (fun s => add_event (EvClose (handle f)) (release_handle (handle f) s)) ;;
  if f_output f && close_fails (env s) (trace s)
  then raise (OSError (f_name f))
  else ret tt.

(** [sys.stdin]: open when the process starts, never closed by it. The
    interpreter opens it with [newline="\n"] (POSIX): its lines end at
    line feeds only. *)
Definition sys_stdin : M FileObj :=
  s <- get ;;
  ret {| handle := 0; f_name := "<stdin>"; f_output := false;
         f_mode := TextMode;
         f_lines := Py.readlines_lf (text (stdin (env s)));
         f_failure := failure (stdin (env s)) |}.

(** Reading [self.VST] and [self.vst_model]. *)
Definition self_VST : M (Vst float) :=
  s <- get ;;
  match VST s with
  | Some v => ret v
  | None => raise (AttributeError "VST")
  end.

Definition self_vst_model : M Model :=
  s <- get ;;
  match vst_model s with
  | Some m => ret m
  | None => raise (AttributeError "vst_model")
  end.

(** [s.encode('UTF-8')]: one byte below 128, two bytes from 128 to 255. *)
Fixpoint encode_utf8 (s : string) : string :=
  match s with
  | EmptyString => EmptyString
  | String c r =>
      let n := nat_of_ascii c in
      if n <? 128 then String c (encode_utf8 r)
      else String (ascii_of_nat (192 + n / 64))
             (String (ascii_of_nat (128 + n mod 64)) (encode_utf8 r))
  end.

(** [json.dumps(self.VST)] *)
Definition json_dumps (vst : Vst float) : string :=
  let array (v : list float) :=
    String.append "[" (String.append (Py.join ", " (map float_repr v)) "]") in
  let item (kv : string * list float) :=
    String.append (Json.dumps_str (fst kv))
      (String.append ": " (array (snd kv))) in
  String.append "{" (String.append (Py.join ", " (map item vst)) "}").

(** [str(v)] for a list of [numpy.float_]. *)
Definition str_list (v : list float) : string :=
  String.append "[" (String.append (Py.join ", " (map numpy_repr v)) "]").

(** *** [Word2Vec.readCorpus] and [Word2Vec.readCorpusFiles] *)

(** [readCorpus(f)]: the loop over the lines [f] delivers; when the file
    raises, the sentences appended so far stay in [self.corpus] and the
    sentence in progress is lost with the frame. *)
Definition readCorpus (f : FileObj) : M unit :=
  s <- get ;;
  let st := readCorpus_loop (f_lines f) (corpus s, []) in
  match f_failure f with
  | Some e => modify (set_corpus (fst st)) ;; raise e
  | None => modify (set_corpus (readCorpus_flush st))
  end.

Definition readCorpusFiles (fileNames : list string) : M unit :=
  if List.length fileNames =? 0 then
    f <- sys_stdin ;;
    readCorpus f
  else
    for_each fileNames (fun fn =>
      f <- open_read fn ;;
      readCorpus f ;;
      close f).

(** *** [Word2Vec.buildVector] *)

(** [method != None and sub in method.lower()] *)
Definition method_has (method : option string) (sub : string) : bool :=
  match method with
  | Some m => Py.contains sub (Py.lower m)
  | None => false
  end.

(** [dict((k, list(numpy.float_(npf32) for npf32 in m.wv[k]))
         for k in m.wv.vocab.keys())]: the state is not touched. *)
Fixpoint lookup_all (m : Model) (keys : list string)
  : pyerr + list (string * list float) :=
  match keys with
  | [] => inr []
  | k :: r =>
      match wv_getitem m k with
      | inl e => inl e
      | inr v =>
          match lookup_all m r with
          | inl e => inl e
          | inr pairs => inr ((k, map numpy_float_ v) :: pairs)
          end
      end
  end.

Definition vocabulary_dict (m : Model) : pyerr + Vst float :=
  match lookup_all m (wv_vocab_keys m) with
  | inl e => inl e
  | inr pairs => inr (dict pairs)
  end.

(** [self.VST = dict(... self.vst_model ...)] *)
Definition assign_VST : M unit :=
  m <- self_vst_model ;;
  v <- lift (vocabulary_dict m) ;;
  modify (set_VST v).

(** The keyword arguments of the three library calls. *)
Definition word2vec_args (a : Args.t float) : Word2VecArgs float :=
  {| w_min_count := Args.minCount a; w_size := Args.vectSize a;
     w_workers := Args.workerNum a; w_sg := Args.skipGram a;
     w_window := Args.windowSize a; w_alpha := Args.learningRate a;
     w_iter := Args.numIteration a; w_negative := Args.negativeSampling a;
     w_sample := Args.subSampling a; w_seed := Args.seed a |}.

Definition fasttext_args (a : Args.t float) : FastTextArgs float :=
  {| f_size := Args.vectSize a; f_sg := Args.skipGram a;
     f_window := Args.windowSize a; f_min_count := Args.minCount a;
     f_iter := Args.numIteration a; f_negative := Args.negativeSampling a;
     f_alpha := Args.learningRate a; f_min_n := Args.minNgram a;
     f_max_n := Args.maxNgram a; f_bucket := Args.bucket a;
     f_workers := Args.workerNum a |}.

Definition optimized_args (a : Args.t float) (c : Corpus)
  : FastTextOptArgs float :=
  {| t_ft_path := Args.fastTextHome a; t_corpus_file := c;
     t_model := "skipgram"; t_size := Args.vectSize a;
     t_alpha := Args.learningRate a; t_window := Args.windowSize a;
     t_min_count := Args.minCount a; t_negative := Args.negativeSampling a;
     t_iter := Args.numIteration a; t_min_n := Args.minNgram a;
     t_max_n := Args.maxNgram a; t_threads := Args.workerNum a |}.

(** [FastText_OPT.train(...)]: the external tool runs, on files of its
    own; then the call returns or raises. *)
Definition call_FastText_OPT_train (args : FastTextOptArgs float) : M Model :=
  modify (add_event (EvExternal (FastText_OPT_files args))) ;;
  lift (FastText_OPT_train args).

Definition buildVector (a : Args.t float) : M unit :=
  print_stderr "Building the embeddings vectors..." ;;
  when (method_has (Args.method a) "word2vec") (
    print_stderr "Using word2vec method..." ;;
    s <- get ;;
    m <- lift (Word2Vec_init (corpus s) (word2vec_args a)) ;;
    modify (set_vst_model m) ;;
    print_stderr "Creating the vocabulary dictionary..." ;;
    assign_VST) ;;
  when (method_has (Args.method a) "fasttext") (
    print_stderr "Using fastText method..." ;;
    m <- lift (FastText_init (fasttext_args a)) ;;
    modify (set_vst_model m) ;;
    s <- get ;;
    m <- self_vst_model ;;
    m <- lift (build_vocab m (corpus s)) ;;
    modify (set_vst_model m) ;;
    m <- self_vst_model ;;
    m <- lift (train m (corpus s) (Args.workerNum a)) ;;
    modify (set_vst_model m) ;;
    print_stderr "Creating the vocabulary dictionary..." ;;
    assign_VST) ;;
  when (method_has (Args.method a) "fasttext"
        && method_has (Args.method a) "optimized") (
    print_stderr "Using fastText method..." ;;
    s <- get ;;
    (* the value of the call is not bound to anything *)
    _ <- call_FastText_OPT_train (optimized_args a (corpus s)) ;;
    print_stderr "Creating the vocabulary dictionary..." ;;
    assign_VST).

(** *** The writers *)

Definition writeBin (fileName : option string) : M unit :=
  match fileName with
  | None => ret tt
  | Some fn =>
      m <- self_vst_model ;;
      modify (add_event (EvSave fn)) ;;
      lift (save m fn)
  end.

Definition writeJSON (fileName : option string) : M unit :=
  match fileName with
  | None => ret tt
  | Some fn =>
      f <- (if Py.endswith fn ".gz"
            then open_write fn GzipMode
            else open_write fn TextMode) ;;
      vst <- self_VST ;;
      write f (Bytes (encode_utf8 (json_dumps vst))) ;;
      close f
  end.

Definition writeTxt (fileName : option string) : M unit :=
  match fileName with
  | None => ret tt
  | Some fn =>
      f <- open_write fn TextMode ;;
      vst <- self_VST ;;
      for_each vst (fun kv =>
        write f (Str (fst kv)) ;;
        write f (Str (String Py.TAB "")) ;;
        write f (Str (str_list (snd kv))) ;;
        write f (Str (String Py.LF ""))) ;;
      close f
  end.

(** *** [Word2Vec.run] *)

(** The call of [buildVector] in [run]: the options, and the default
    values of the parameters [run] does not pass, [learningRate=0.05],
    [negativeSampling=5] and [subSampling=0.001]. *)
Definition build_args (options : Options.t) : Args.t float :=
  Args.mk (Options.workerNum options) (Options.minCount options)
    (Options.vectSize options) (Options.skipGram options)
    (Options.windowSize options) float_0_05
    (Options.numIteration options) 5 float_0_001 (Options.seed options)
    (Options.method options) (Options.minNgram options)
    (Options.maxNgram options) (Options.bucket options)
    (Options.fastTextHome options).

Definition run : M unit :=
  s <- get ;;
  parsed <- lift (OptParse.parse_args (argv (env s))) ;;
  let options := fst parsed in
  let args := snd parsed in
  readCorpusFiles args ;;
  buildVector (build_args options) ;;
  writeJSON (Options.json options) ;;
  writeTxt (Options.txt options) ;;
  writeBin (Options.bin options).

End Program.

Arguments State G : clear implicits.
Arguments M G A : clear implicits.

Notation "x <- c ;; k" := (bind c (fun x => k))
  (at level 61, c at next level, right associativity).
Notation "c ;; k" := (bind c (fun _ => k))
  (at level 61, right associativity).

(** ** Vocabulary of the properties *)

(** The parsing rule in the specification's words, independent of the
    loop of [readCorpus]: a blank line closes the group of lines before it
    and starts a new group; the sentences are the groups that have a line;
    the tokens of a sentence are its lines, stripped. *)
Definition blank (line : string) : bool := String.eqb (Py.strip line) "".

Fixpoint spec_groups (lines : list string) : list (list string) :=
  match lines with
  | [] => [[]]
  | l :: r =>
      if blank l then [] :: spec_groups r
      else match spec_groups r with
           | g :: gs => (Py.strip l :: g) :: gs
           | [] => [[Py.strip l]]
           end
  end.

Definition spec_sentences (lines : list string) : Corpus :=
  filter (fun g => negb (List.length g =? 0)) (spec_groups lines).

(** First and last character of a string are whitespace. *)
Definition head_space (s : string) : bool :=
  match s with
  | EmptyString => false
  | String c _ => Py.isspace c
  end.

Fixpoint last_space (s : string) : bool :=
  match s with
  | EmptyString => false
  | String c EmptyString => Py.isspace c
  | String _ r => last_space r
  end.

(** A token of the corpus: not empty, no whitespace at either end. *)
Definition token_ok (t : string) : Prop :=
  t <> EmptyString /\ head_space t = false /\ last_space t = false.

Definition sentence_ok (sent : Sentence) : Prop :=
  sent <> [] /\ Forall token_ok sent.

Definition corpus_ok (c : Corpus) : Prop := Forall sentence_ok c.

(** The output paths the process tried to create, in order: the files
    opened for writing and the targets of [save]. *)
Definition output_of (ev : event) : list string :=
  match ev with
  | EvOpenWrite path _ _ => [path]
  | EvSave path => [path]
  | _ => []
  end.

Definition outputs (tr : list event) : list string := flat_map output_of tr.

Definition opt_list {A} (o : option A) : list A :=
  match o with
  | Some a => [a]
  | None => []
  end.

(** The output paths given on the command line, in the order [run] calls
    the writers: [--json], [--txt], [--bin]. *)
Definition supplied (o : Options.t) : list string :=
  opt_list (Options.json o) ++ opt_list (Options.txt o)
  ++ opt_list (Options.bin o).


(** ** A small instance of the libraries, for concrete runs

    Numbers are integers; a model is a name and a vocabulary. The plain
    embedding models give every token of the corpus a vector of zeros of
    the size asked for; the external tool answers with a different model. *)
Module Toy.

Record model : Type := {
  name : string;
  vocab : list (string * list Z)
}.

Definition zeros (size : Z) : list Z := repeat 0%Z (Z.to_nat size).

Definition fit (name : string) (c : Corpus) (size : Z) : model :=
  {| name := name; vocab := map (fun tok => (tok, zeros size)) (List.concat c) |}.

Fixpoint assoc (k : string) (d : list (string * list Z)) : pyerr + list Z :=
  match d with
  | [] => inl (LibraryError "KeyError")
  | (k', v) :: r => if String.eqb k' k then inr v else assoc k r
  end.

Fixpoint decimal_digits (fuel : nat) (n : nat) (acc : string) : string :=
  match fuel with
  | O => acc
  | S fuel' =>
      let acc' := String (ascii_of_nat (48 + n mod 10)) acc in
      if n / 10 =? 0 then acc' else decimal_digits fuel' (n / 10) acc'
  end.

Definition repr (z : Z) : string :=
  let n := Z.abs_nat z in
  let d := decimal_digits (S n) n EmptyString in
  if (z <? 0)%Z then String "-" d else d.

#[export] Instance gensim : Gensim := {|
  float := Z;
  Model := model;
  float_0_05 := 0%Z;
  float_0_001 := 0%Z;
  Word2Vec_init := fun c a => inr (fit "Word2Vec" c (w_size _ a));
  FastText_init := fun a =>
    inr {| name := "FastText"; vocab := [("", zeros (f_size _ a))] |};
  build_vocab := fun m c =>
    inr (fit (name m) c
           (match vocab m with (_, v) :: _ => Z.of_nat (List.length v) | [] => 0%Z end));
  train := fun m c threads => inr m;
  FastText_OPT_files := fun a => ["ft_model.bin"; "ft_model.vec"];
  FastText_OPT_train := fun a =>
    inr (fit "fasttext skipgram" (t_corpus_file _ a) (t_size _ a));
  wv_vocab_keys := fun m => map fst (dict (vocab m));
  wv_getitem := fun m k => assoc k (vocab m);
  numpy_float_ := fun x => x;
  save := fun m fn => inr tt;
  float_repr := repr;
  numpy_repr := repr
|}.

(** A file system given as an association list. *)
Fixpoint lookup (fs : list (string * TextFile)) (fn : string) : option TextFile :=
  match fs with
  | [] => None
  | (k, v) :: r => if String.eqb k fn then Some v else lookup r fn
  end.

Definition env (args : list string) (input : string)
  (fs : list (string * TextFile)) : Env :=
  {| argv := args; stdin := readable input; files := lookup fs;
     writable := fun _ => true; write_fails := fun _ => false;
     close_fails := fun _ => false |}.

End Toy.

(** ** Vocabulary of the proofs *)

(** The sentence in progress is the beginning of the first group still to
    come. *)
Definition resume (cur : Sentence) (groups : list (list string))
  : list (list string) :=
  match groups with
  | g :: gs => (cur ++ g) :: gs
  | [] => [cur]
  end.

Definition nonempty (groups : list (list string)) : Corpus :=
  filter (fun g => negb (List.length g =? 0)) groups.

(** The invariant of the loop: the corpus is well formed and the sentence
    in progress holds well-formed tokens. *)
Definition loop_ok (st : Corpus * Sentence) : Prop :=
  corpus_ok (fst st) /\ Forall token_ok (snd st).

(** The lines [buildVector] prints when the fastText branch and then the
    optimized branch run. *)
Definition stderr_fasttext_twice : list string :=
  [ "Building the embeddings vectors...";
    "Using fastText method..."; "Creating the vocabulary dictionary...";
    "Using fastText method..."; "Creating the vocabulary dictionary..." ].

Definition json_mode (fn : string) : mode :=
  if Py.endswith fn ".gz" then GzipMode else TextMode.

(** The errors a writer raises when nothing was trained. *)
Definition unset_error (err : pyerr) : Prop :=
  err = AttributeError "VST" \/ err = AttributeError "vst_model"
  \/ exists p, err = OSError p.

Definition is_write (ev : event) : bool :=
  match ev with
  | EvWrite _ _ => true
  | _ => false
  end.

Section Vocabulary.

Context {G : Gensim}.

(** [c] never changes the observation [proj] of the state, whether it
    returns or raises. *)
Definition keeps {X A : Type} (proj : State G -> X) (c : M G A) : Prop :=
  forall s, proj (snd (c s)) = proj s.

(** The object after [readCorpus] was called on each file of [fs] in turn,
    whatever the outcome of each call. *)
Definition after_calls (fs : list FileObj) (s : State G) : State G :=
  fold_left (fun s f => snd (readCorpus f s)) fs s.

(** The state after [open(fn)] found [tf] and [readCorpus] read it to the
    end: one more handle was handed out and closed again. *)
Definition read_done (fn : string) (tf : TextFile) (s : State G) : State G :=
  mkState (env s)
    (readCorpus_lines (Py.readlines (text tf)) (corpus s))
    (vst_model s) (VST s) (stderr s) (S (next_handle s))
    (List.remove Nat.eq_dec (next_handle s) (next_handle s :: open_handles s))
    (trace s ++ [EvOpenRead fn (Some (next_handle s)); EvClose (next_handle s)]).

(** The state when the file raised [e] while it was read: [f.close()] was
    not reached. *)
Definition read_failed (fn : string) (tf : TextFile) (s : State G) : State G :=
  mkState (env s)
    (fst (readCorpus_loop (Py.readlines (text tf)) (corpus s, [])))
    (vst_model s) (VST s) (stderr s) (S (next_handle s))
    (next_handle s :: open_handles s)
    (trace s ++ [EvOpenRead fn (Some (next_handle s))]).

(** The state after an output file was opened: a new handle, open. *)
Definition opened (fn : string) (m : mode) (s : State G) : State G :=
  add_event (EvOpenWrite fn m (Some (next_handle s))) (alloc_handle s).

(** The file object [open(fn, 'w')] or [gzip.open(fn, 'w')] returns. *)
Definition output_file (fn : string) (m : mode) (h : nat) : FileObj :=
  {| handle := h; f_name := fn; f_output := true; f_mode := m;
     f_lines := []; f_failure := None |}.

(** What [writeJSON] and [writeTxt] do between [open] and [close]. *)
Definition json_body (f : FileObj) : M G unit :=
  vst <- self_VST ;;
  write f (Bytes (encode_utf8 (json_dumps vst))).

Definition txt_body (f : FileObj) : M G unit :=
  vst <- self_VST ;;
  for_each vst (fun kv =>
    write f (Str (fst kv)) ;;
    write f (Str (String Py.TAB "")) ;;
    write f (Str (str_list (snd kv))) ;;
    write f (Str (String Py.LF ""))).

(** A file opened for writing, used, then closed: no [with], no
    [try ... finally]. *)
Definition open_use_close (fn : string) (m : mode) (body : FileObj -> M G unit)
  : M G unit :=
  f <- open_write fn m ;;
  body f ;;
  close f.


(** [c] adds nothing to the trace but writes. *)
Definition only_writes {A} (c : M G A) : Prop :=
  forall s, exists evs,
    trace (snd (c s)) = trace s ++ evs /\ forallb is_write evs = true.

(** A writer that opened [fn] in the state [s] and raised before
    [f.close()]: after the open it only wrote, and the file object is still
    open. *)
Definition left_open (fn : string) (m : mode) (s s' : State G) : Prop :=
  exists evs,
    forallb is_write evs = true
    /\ trace s' = trace s ++ EvOpenWrite fn m (Some (next_handle s)) :: evs
    /\ open_handles s' = next_handle s :: open_handles s.

(** A writer that opened [fn] in the state [s], wrote, and reached
    [f.close()]: the file object is closed, and the outcome [r] is the
    [OSError] of the flush when that fails. *)
Definition closed_after (fn : string) (m : mode) (r : pyerr + unit)
  (s s' : State G) : Prop :=
  exists evs,
    forallb is_write evs = true
    /\ trace s'
       = trace s ++ EvOpenWrite fn m (Some (next_handle s)) :: evs
         ++ [EvClose (next_handle s)]
    /\ open_handles s'
       = List.remove Nat.eq_dec (next_handle s) (next_handle s :: open_handles s)
    /\ r = if close_fails (env s)
               (trace s ++ EvOpenWrite fn m (Some (next_handle s)) :: evs)
           then inl (OSError fn) else inr tt.

(** The object after a [buildVector] that trained nothing: one line was
    printed. *)
Definition untrained (s : State G) : State G :=
  add_stderr "Building the embeddings vectors..." s.

(** [run] after the command line was parsed. *)
Definition pipeline (o : Options.t) (args : list string) : M G unit :=
  readCorpusFiles args ;;
  buildVector (build_args o) ;;
  writeJSON (Options.json o) ;;
  writeTxt (Options.txt o) ;;
  writeBin (Options.bin o).

End Vocabulary.

(** ** Concrete inputs *)

Module Runs.

Definition G0 : Gensim := Toy.gensim.

(** A stream with two sentences, as the file object [open] returns. *)
Definition two_sentences : FileObj :=
  {| handle := 3; f_name := "corpus.txt"; f_output := false; f_mode := TextMode;
     f_lines := Py.readlines ("the cat" +n+ "sat" +n+ "" +n+ "dog ran" +n+ "");
     f_failure := None |}.

(** A stream of blank lines. *)
Definition blank_lines : FileObj :=
  {| handle := 3; f_name := "blank.txt"; f_output := false; f_mode := TextMode;
     f_lines := Py.readlines ("" +n+ "  " +n+ String Py.TAB ("" +n+ ""));
     f_failure := None |}.

Definition fresh : State G0 := init (Toy.env [] "" []).

(** An object whose fastText run is about to start. *)
Definition with_corpus : State G0 := set_corpus [["a"; "b"]; ["a"]] fresh.

Definition args_optimized : Args.t (@float G0) :=
  build_args
    (Options.set_vectSize 2
       (Options.set_method "FastText_Optimized" Options.defaults)).

(** An object that holds a vector space. *)
Definition with_VST : State G0 :=
  set_VST (G := G0) [("a", [1%Z; 2%Z])] fresh.

Definition text_a : string := "a" +n+ "".
Definition text_b : string := "b" +n+ "".
Definition text_a_blank : string := "a" +n+ "" +n+ "".

(** Three corpus files and the concatenations of the first two and of the
    last two. *)
Definition disk : State G0 :=
  init (Toy.env [] ""
          [ ("a.txt", readable text_a);
            ("b.txt", readable text_b);
            ("ab.txt", readable (String.append text_a text_b));
            ("a_.txt", readable text_a_blank);
            ("a_b.txt", readable (String.append text_a_blank text_b));
            ("bad.txt", {| text := text_a;
                           failure := Some (ReadError "decode") |}) ]).

(** An object that holds a vector space, on a device that takes no more
    data: writes are buffered, and the flush of every [f.close()] fails. *)
Definition full_device : State G0 :=
  set_VST (G := G0) [("a", [1%Z; 2%Z])]
    (init {| argv := []; stdin := readable ""; files := Toy.lookup [];
             writable := fun _ => true; write_fails := fun _ => false;
             close_fails := fun _ => true |}).



End Runs.

(** ** Vocabulary of the further properties *)

(** The tokens of a stream, in order: its non-blank lines, stripped. *)
Definition tokens_of_lines (lines : list string) : list string :=
  map Py.strip (filter (fun l => negb (blank l)) lines).

(** A text with every line feed turned into carriage return, line feed. *)
Fixpoint to_crlf (s : string) : string :=
  match s with
  | EmptyString => EmptyString
  | String c r =>
      if Ascii.eqb c Py.LF then String Py.CR (String Py.LF (to_crlf r))
      else String c (to_crlf r)
  end.

(** No carriage return in the text. *)
Fixpoint no_CR (s : string) : bool :=
  match s with
  | EmptyString => true
  | String c r => negb (Ascii.eqb c Py.CR) && no_CR r
  end.

(** The lines of the file [open(fn)] finds. *)
Definition file_lines (e : Env) (fn : string) : list string :=
  match files e fn with
  | Some tf => Py.readlines (text tf)
  | None => []
  end.

(** [open(fn)] finds a file that is read without error. *)
Definition is_readable (e : Env) (fn : string) : Prop :=
  exists t, files e fn = Some (readable t).

(** Files opened and closed one after the other, with handles from [h]. *)
Fixpoint read_events (h : nat) (fns : list string) : list event :=
  match fns with
  | [] => []
  | fn :: r => EvOpenRead fn (Some h) :: EvClose h :: read_events (S h) r
  end.

(** An argument [_process_args] takes for an option: it begins with a
    dash and is longer than the dash. *)
Definition is_option (arg : string) : bool :=
  String.prefix "-" arg && (1 <? String.length arg).

(** The text of the [str] writes to the file object [h], in order. *)
Fixpoint written_text (h : nat) (tr : list event) : string :=
  match tr with
  | [] => EmptyString
  | EvWrite h' (Str d) :: r =>
      if h' =? h then String.append d (written_text h r) else written_text h r
  | _ :: r => written_text h r
  end.

(** [Option.takes_value()]: the option has a type. *)
Definition takes_value (a : OptParse.action) : bool :=
  match a with
  | OptParse.store_string _ | OptParse.store_int _ => true
  | _ => false
  end.

(** A decimal numeral: digits only, at least one, the first not zero. *)
Definition is_decimal_digit (c : ascii) : bool :=
  let n := nat_of_ascii c in (48 <=? n) && (n <=? 57).

Definition is_decimal (s : string) : bool :=
  match s with
  | EmptyString => false
  | String c r =>
      is_decimal_digit c && negb (Ascii.eqb c "0")
      && forallb is_decimal_digit (list_ascii_of_string r)
  end.

(** The number a string of decimal digits denotes, after [acc]. *)
Fixpoint decimal_value (acc : Z) (s : string) : Z :=
  match s with
  | EmptyString => acc
  | String c r => decimal_value (acc * 10 + Z.of_nat (nat_of_ascii c - 48)) r
  end.

(** One line of the text output: the token, a tab, the vector, a line
    feed. *)
Definition txt_line {float : Type} (repr : float -> string)
  (kv : string * list float) : string :=
  String.append (fst kv)
    (String Py.TAB
       (String.append
          (String.append "[" (String.append (Py.join ", " (map repr (snd kv))) "]"))
          (String Py.LF EmptyString))).

Section VocabularyMore.

Context {G : Gensim}.

(** The state after the files [fns] were read to the end, one after the
    other. *)
Definition reads_done (fns : list string) (s : State G) : State G :=
  fold_left
    (fun s fn =>
       match files (env s) fn with
       | Some tf => read_done fn tf s
       | None => s
       end)
    fns s.

(** The four writes of [writeTxt] for each entry of the vector space. *)
Definition txt_events (h : nat) (vst : Vst float) : list event :=
  flat_map
    (fun kv =>
       [ EvWrite h (Str (fst kv));
         EvWrite h (Str (String Py.TAB ""));
         EvWrite h (Str (str_list (snd kv)));
         EvWrite h (Str (String Py.LF "")) ])
    vst.

Definition add_events (evs : list event) (s : State G) : State G :=
  mkState (env s) (corpus s) (vst_model s) (VST s) (stderr s) (next_handle s)
          (open_handles s) (trace s ++ evs).

(** A method that returns normally leaves no file open that was not open
    before. *)
Definition no_leak {A} (c : M G A) : Prop :=
  forall s a s', c s = (inr a, s') ->
    forall h, In h (open_handles s') -> In h (open_handles s).

End VocabularyMore.

(** Libraries whose word2vec training always raises. *)
Definition broken_gensim : Gensim :=
  {| float := Z;
     Model := Toy.model;
     float_0_05 := 0%Z;
     float_0_001 := 0%Z;
     Word2Vec_init := fun c a => inl (LibraryError "training failed");
     FastText_init := @FastText_init Toy.gensim;
     build_vocab := @build_vocab Toy.gensim;
     train := @train Toy.gensim;
     FastText_OPT_files := @FastText_OPT_files Toy.gensim;
     FastText_OPT_train := @FastText_OPT_train Toy.gensim;
     wv_vocab_keys := @wv_vocab_keys Toy.gensim;
     wv_getitem := @wv_getitem Toy.gensim;
     numpy_float_ := fun x => x;
     save := fun m fn => inr tt;
     float_repr := Toy.repr;
     numpy_repr := Toy.repr |}.

(** More concrete inputs. *)
Module MoreRuns.

Definition text_unix : string := "the cat" +n+ "sat" +n+ "" +n+ "dog ran" +n+ "".

Definition disk : State Runs.G0 :=
  init (Toy.env [] ""
          [ ("a.txt", readable Runs.text_a);
            ("b.txt", readable Runs.text_b);
            ("unix.txt", readable text_unix);
            ("dos.txt", readable (to_crlf text_unix)) ]).

(** Standard input with the text "the cat\r\n\r\na\rb\n". *)
Definition text_cr : string :=
  String.append "the cat"
    (String Py.CR ("" +n+ String Py.CR ("" +n+
       String.append "a" (String Py.CR ("b" +n+ ""))))).

Definition from_stdin : State Runs.G0 := init (Toy.env [] text_cr []).

(** A run that trains with word2vec and writes the text output. *)
Definition env_txt : Env :=
  Toy.env ["--method"; "word2vec"; "--vector-size"; "2"; "--txt"; "v.txt"]
    "the cat" [].

(** The same with a JSON output whose path does not end in ".gz". *)
Definition env_json : Env :=
  Toy.env ["--method"; "word2vec"; "--vector-size"; "2";
           "--json"; "v.json"; "--txt"; "v.txt"; "--bin"; "v.bin"]
    "the cat" [].

Definition options_txt : Options.t :=
  Options.set_txt "v.txt"
    (Options.set_vectSize 2 (Options.set_method "word2vec" Options.defaults)).

Definition options_json : Options.t :=
  Options.set_bin "v.bin"
    (Options.set_txt "v.txt"
       (Options.set_json "v.json"
          (Options.set_vectSize 2
             (Options.set_method "word2vec" Options.defaults)))).

Definition toy_model : Toy.model :=
  {| Toy.name := "m";
     Toy.vocab := [("a", [1%Z]); ("b", [2%Z])] |}.

End MoreRuns.

(** * Properties *)

(** ** Stripping *)

Lemma lstrip_head_space (s : string) : head_space (Py.lstrip s) = false.
Proof.
  induction s as [|c r IH]; simpl; [reflexivity|].
  destruct (Py.isspace c) eqn:E; [exact IH|].
  simpl. exact E.
Qed.

Lemma rstrip_last_space (s : string) : last_space (Py.rstrip s) = false.
Proof.
  induction s as [|c r IH]; simpl; [reflexivity|].
  destruct (Py.rstrip r) as [|c' r'] eqn:E.
  - destruct (Py.isspace c) eqn:Ec; simpl; [reflexivity | exact Ec].
  - exact IH.
Qed.

Lemma rstrip_head_space (s : string) :
  head_space s = false -> head_space (Py.rstrip s) = false.
Proof.
  destruct s as [|c r]; simpl; [reflexivity|].
  intros Hc. destruct (Py.rstrip r); [rewrite Hc|]; simpl; exact Hc.
Qed.

Lemma strip_token_ok (line : string) :
  Py.strip line <> EmptyString -> token_ok (Py.strip line).
Proof.
  intros Hne. unfold token_ok. split; [exact Hne|]. split.
  - apply rstrip_head_space, lstrip_head_space.
  - apply rstrip_last_space.
Qed.

Lemma blank_false_strip (line : string) :
  blank line = false -> Py.strip line <> EmptyString.
Proof. unfold blank. intros H. apply String.eqb_neq. exact H. Qed.

Lemma blank_true_strip (line : string) :
  blank line = true -> Py.strip line = EmptyString.
Proof. unfold blank. intros H. apply String.eqb_eq. exact H. Qed.

(** ** The loop of [readCorpus] *)

Lemma readCorpus_step_blank (c : Corpus) (cur : Sentence) (line : string) :
  blank line = true ->
  readCorpus_step (c, cur) line
  = if 0 <? List.length cur then (c ++ [cur], []) else (c, cur).
Proof. unfold readCorpus_step, blank. intros ->. reflexivity. Qed.

Lemma readCorpus_step_token (c : Corpus) (cur : Sentence) (line : string) :
  blank line = false ->
  readCorpus_step (c, cur) line = (c, cur ++ [Py.strip line]).
Proof. unfold readCorpus_step, blank. intros ->. reflexivity. Qed.

Lemma readCorpus_loop_app (l1 l2 : list string) (st : Corpus * Sentence) :
  readCorpus_loop (l1 ++ l2) st = readCorpus_loop l2 (readCorpus_loop l1 st).
Proof. unfold readCorpus_loop. apply fold_left_app. Qed.

Lemma readCorpus_loop_cons (l : string) (r : list string) (st : Corpus * Sentence) :
  readCorpus_loop (l :: r) st = readCorpus_loop r (readCorpus_step st l).
Proof. reflexivity. Qed.

Lemma spec_groups_not_nil (lines : list string) : spec_groups lines <> [].
Proof.
  destruct lines as [|l r]; simpl; [discriminate|].
  destruct (blank l); [discriminate|].
  destruct (spec_groups r); discriminate.
Qed.

Lemma readCorpus_loop_spec (lines : list string) :
  forall (c : Corpus) (cur : Sentence),
    readCorpus_flush (readCorpus_loop lines (c, cur))
    = c ++ nonempty (resume cur (spec_groups lines)).
Proof.
  induction lines as [|l r IH]; intros c cur.
  - simpl. rewrite app_nil_r.
    destruct cur as [|t cur']; simpl; [rewrite app_nil_r|]; reflexivity.
  - rewrite readCorpus_loop_cons. simpl spec_groups.
    destruct (blank l) eqn:Hb.
    + rewrite readCorpus_step_blank by exact Hb.
      destruct (spec_groups r) as [|g gs] eqn:Hg;
        [exfalso; exact (spec_groups_not_nil r Hg)|].
      destruct cur as [|t cur']; cbn [List.length Nat.ltb Nat.leb].
      * rewrite IH. reflexivity.
      * rewrite IH. simpl. rewrite <- app_assoc, app_nil_r. reflexivity.
    + rewrite readCorpus_step_token by exact Hb.
      rewrite IH.
      destruct (spec_groups r) as [|g gs] eqn:Hg;
        [exfalso; exact (spec_groups_not_nil r Hg)|].
      simpl. rewrite <- app_assoc. reflexivity.
Qed.

Lemma readCorpus_lines_spec (lines : list string) (c : Corpus) :
  readCorpus_lines lines c = c ++ spec_sentences lines.
Proof.
  unfold readCorpus_lines. rewrite readCorpus_loop_spec.
  unfold spec_sentences, nonempty, resume.
  destruct (spec_groups lines) as [|g gs] eqn:Hg;
    [exfalso; exact (spec_groups_not_nil lines Hg)|].
  reflexivity.
Qed.

(** A run of non-blank lines only extends the sentence in progress. *)
Lemma readCorpus_loop_tokens (ls : list string) :
  Forall (fun l => blank l = false) ls ->
  forall (c : Corpus) (cur : Sentence),
    readCorpus_loop ls (c, cur) = (c, cur ++ map Py.strip ls).
Proof.
  induction 1 as [|l r Hl _ IH]; intros c cur.
  - simpl. rewrite app_nil_r. reflexivity.
  - rewrite readCorpus_loop_cons, readCorpus_step_token by exact Hl.
    rewrite IH, <- app_assoc. reflexivity.
Qed.

(** Blank lines leave an empty sentence in progress empty. *)
Lemma readCorpus_loop_blanks (ls : list string) :
  Forall (fun l => blank l = true) ls ->
  forall c : Corpus, readCorpus_loop ls (c, []) = (c, []).
Proof.
  induction 1 as [|l r Hl _ IH]; intros c; [reflexivity|].
  rewrite readCorpus_loop_cons, readCorpus_step_blank by exact Hl.
  simpl. apply IH.
Qed.

Lemma map_strip_not_nil (ls : list string) :
  ls <> [] -> (0 <? List.length (map Py.strip ls)) = true.
Proof. destruct ls; [congruence | reflexivity]. Qed.

(** A blank line after at least one non-blank line ends the sentence. *)
Lemma readCorpus_lines_terminated (ls : list string) (b : string)
  (rest : list string) (c : Corpus) :
  ls <> [] -> Forall (fun l => blank l = false) ls -> blank b = true ->
  readCorpus_lines (ls ++ b :: rest) c
  = readCorpus_lines rest (c ++ [map Py.strip ls]).
Proof.
  intros Hne Hls Hb. unfold readCorpus_lines.
  rewrite readCorpus_loop_app, readCorpus_loop_tokens by exact Hls.
  rewrite readCorpus_loop_cons, readCorpus_step_blank by exact Hb.
  simpl app. rewrite map_strip_not_nil by exact Hne. reflexivity.
Qed.

(** A sentence in progress at the end of the stream is appended. *)
Lemma readCorpus_lines_unterminated (ls : list string) (c : Corpus) :
  ls <> [] -> Forall (fun l => blank l = false) ls ->
  readCorpus_lines ls c = c ++ [map Py.strip ls].
Proof.
  intros Hne Hls. unfold readCorpus_lines.
  rewrite readCorpus_loop_tokens by exact Hls.
  simpl. rewrite map_strip_not_nil by exact Hne. reflexivity.
Qed.

(** The corpus only grows, on the right. *)
Lemma readCorpus_loop_appends (lines : list string) :
  forall (c : Corpus) (cur : Sentence),
    exists added, fst (readCorpus_loop lines (c, cur)) = c ++ added.
Proof.
  induction lines as [|l r IH]; intros c cur.
  - exists []. simpl. rewrite app_nil_r. reflexivity.
  - rewrite readCorpus_loop_cons. destruct (blank l) eqn:Hb.
    + rewrite readCorpus_step_blank by exact Hb.
      destruct (0 <? List.length cur); cbv iota.
      * destruct (IH (c ++ [cur]) []) as [added Ha].
        exists (cur :: added). rewrite Ha, <- app_assoc. reflexivity.
      * apply IH.
    + rewrite readCorpus_step_token by exact Hb. apply IH.
Qed.

Lemma readCorpus_flush_appends (st : Corpus * Sentence) :
  exists added, readCorpus_flush st = fst st ++ added.
Proof.
  destruct st as [c cur]. simpl. destruct (0 <? List.length cur).
  - exists [cur]. reflexivity.
  - exists []. rewrite app_nil_r. reflexivity.
Qed.

Lemma ltb_length_not_nil {A} (l : list A) :
  (0 <? List.length l) = true -> l <> [].
Proof. destruct l; [discriminate | discriminate]. Qed.

Lemma readCorpus_step_ok (st : Corpus * Sentence) (line : string) :
  loop_ok st -> loop_ok (readCorpus_step st line).
Proof.
  destruct st as [c cur]. intros [Hc Hcur]. simpl in Hc, Hcur.
  destruct (blank line) eqn:Hb.
  - rewrite readCorpus_step_blank by exact Hb.
    destruct (0 <? List.length cur) eqn:Hlen.
    + split; simpl; [|constructor].
      apply Forall_app. split; [exact Hc|].
      constructor; [|constructor].
      split; [apply ltb_length_not_nil; exact Hlen | exact Hcur].
    + split; assumption.
  - rewrite readCorpus_step_token by exact Hb.
    split; simpl; [exact Hc|].
    apply Forall_app. split; [exact Hcur|].
    constructor; [|constructor].
    apply strip_token_ok, blank_false_strip, Hb.
Qed.

Lemma readCorpus_loop_ok (lines : list string) :
  forall st, loop_ok st -> loop_ok (readCorpus_loop lines st).
Proof.
  induction lines as [|l r IH]; intros st Hst; [exact Hst|].
  rewrite readCorpus_loop_cons. apply IH, readCorpus_step_ok, Hst.
Qed.

Lemma readCorpus_flush_ok (st : Corpus * Sentence) :
  loop_ok st -> corpus_ok (readCorpus_flush st).
Proof.
  destruct st as [c cur]. intros [Hc Hcur]. simpl in *.
  destruct (0 <? List.length cur) eqn:Hlen; [|exact Hc].
  apply Forall_app. split; [exact Hc|].
  constructor; [|constructor].
  split; [apply ltb_length_not_nil; exact Hlen | exact Hcur].
Qed.

(** ** [readCorpus] as a method *)

Section Reader.

Context {G : Gensim}.

Lemma set_corpus_same (s : State G) : set_corpus (corpus s) s = s.
Proof. destruct s. reflexivity. Qed.

Lemma readCorpus_returns (f : FileObj) (s : State G) :
  f_failure f = None ->
  readCorpus f s
  = (inr tt, set_corpus (readCorpus_lines (f_lines f) (corpus s)) s).
Proof.
  intros Hf. unfold readCorpus, bind, get, modify. rewrite Hf. reflexivity.
Qed.

Lemma readCorpus_raises (f : FileObj) (s : State G) (e : pyerr) :
  f_failure f = Some e ->
  readCorpus f s
  = (inl e, set_corpus (fst (readCorpus_loop (f_lines f) (corpus s, []))) s).
Proof.
  intros Hf. unfold readCorpus, bind, get, modify, raise. rewrite Hf.
  reflexivity.
Qed.

Lemma readCorpus_appends (f : FileObj) (s : State G) :
  exists added, corpus (snd (readCorpus f s)) = corpus s ++ added.
Proof.
  destruct (f_failure f) as [e|] eqn:Hf.
  - rewrite (readCorpus_raises f s e Hf). simpl.
    apply readCorpus_loop_appends.
  - rewrite (readCorpus_returns f s Hf). simpl. unfold readCorpus_lines.
    destruct (readCorpus_loop_appends (f_lines f) (corpus s) []) as [a1 H1].
    destruct (readCorpus_flush_appends
                (readCorpus_loop (f_lines f) (corpus s, []))) as [a2 H2].
    exists (a1 ++ a2). rewrite H2, H1, app_assoc. reflexivity.
Qed.

Lemma readCorpus_keeps_ok (f : FileObj) (s : State G) :
  corpus_ok (corpus s) -> corpus_ok (corpus (snd (readCorpus f s))).
Proof.
  intros Hc.
  assert (Hl : loop_ok (readCorpus_loop (f_lines f) (corpus s, []))).
  { apply readCorpus_loop_ok. split; [exact Hc | constructor]. }
  destruct (f_failure f) as [e|] eqn:Hf.
  - rewrite (readCorpus_raises f s e Hf). simpl. exact (proj1 Hl).
  - rewrite (readCorpus_returns f s Hf). simpl.
    apply readCorpus_flush_ok, Hl.
Qed.

Lemma after_calls_ok (fs : list FileObj) :
  forall s : State G,
    corpus_ok (corpus s) -> corpus_ok (corpus (after_calls fs s)).
Proof.
  induction fs as [|f r IH]; intros s Hs; [exact Hs|].
  simpl. apply IH, readCorpus_keeps_ok, Hs.
Qed.

(** C4: consecutive non-blank lines form one sentence whose tokens are the
    stripped lines, a blank line ends the sentence in progress, and a
    sentence in progress at the end of the stream is appended. For a file
    [f] read without error, [readCorpus] appends to the corpus exactly the
    sentences of the specification's rule ([spec_sentences]); a blank line
    after a run of non-blank lines closes the sentence made of that run; a
    final run of non-blank lines is appended too; and the text
    "the cat\nsat\n\ndog ran\n" gives [["the cat","sat"],["dog ran"]]. *)
Theorem C4_readCorpus_parsing_rule (f : FileObj) (s : State G) :
  f_failure f = None ->
  readCorpus f s
  = (inr tt, set_corpus (corpus s ++ spec_sentences (f_lines f)) s)
  /\ (forall (ls : list string) (b : string) (rest : list string) (c : Corpus),
        ls <> [] -> Forall (fun l => blank l = false) ls -> blank b = true ->
        readCorpus_lines (ls ++ b :: rest) c
        = readCorpus_lines rest (c ++ [map Py.strip ls]))
  /\ (forall (ls : list string) (c : Corpus),
        ls <> [] -> Forall (fun l => blank l = false) ls ->
        readCorpus_lines ls c = c ++ [map Py.strip ls])
  /\ corpus (snd (readCorpusFiles []
               (init (Toy.env [] ("the cat" +n+ "sat" +n+ "" +n+ "dog ran" +n+ "") []))))
     = [["the cat"; "sat"]; ["dog ran"]].
Proof.
  intros Hf. split; [|split; [|split]].
  - rewrite (readCorpus_returns f s Hf), readCorpus_lines_spec. reflexivity.
  - intros ls b rest c. apply readCorpus_lines_terminated.
  - intros ls c. apply readCorpus_lines_unterminated.
  - reflexivity.
Qed.

(** C9: a stream that is empty or holds only blank lines (lines that strip
    to the empty string) adds no sentence to the corpus, and the call
    returns normally. *)
Theorem C9_blank_stream_adds_nothing (f : FileObj) (s : State G) :
  f_failure f = None ->
  Forall (fun l => Py.strip l = EmptyString) (f_lines f) ->
  readCorpus f s = (inr tt, s).
Proof.
  intros Hf Hb. rewrite (readCorpus_returns f s Hf).
  unfold readCorpus_lines. rewrite readCorpus_loop_blanks.
  - simpl. rewrite set_corpus_same. reflexivity.
  - eapply Forall_impl; [|exact Hb].
    intros l Hl. unfold blank. rewrite Hl. reflexivity.
Qed.

(** C10: after any sequence of [readCorpus] calls on a new object, every
    sentence of the corpus is a non-empty list and every token is a
    non-empty string without leading or trailing whitespace; and every call,
    whether it returns or raises, only appends sentences to the corpus. *)
Theorem C10_corpus_invariant (e : Env) (fs : list FileObj) :
  corpus_ok (corpus (after_calls fs (init e)))
  /\ (forall (f : FileObj) (s : State G),
        exists added, corpus (snd (readCorpus f s)) = corpus s ++ added).
Proof.
  split.
  - apply after_calls_ok. constructor.
  - apply readCorpus_appends.
Qed.

End Reader.

(** ** Lines of a text *)

Lemma append_assoc (a b c : string) :
  String.append (String.append a b) c = String.append a (String.append b c).
Proof. induction a as [|x a IH]; simpl; [reflexivity | rewrite IH; reflexivity]. Qed.

Lemma readlines_LF (s : string) :
  Py.readlines (String Py.LF s) = String Py.LF EmptyString :: Py.readlines s.
Proof. reflexivity. Qed.

Lemma readlines_not_nil (s : string) :
  s <> EmptyString -> Py.readlines s <> [].
Proof.
  destruct s as [|c r]; [congruence|]. intros _. simpl.
  destruct (Ascii.eqb c Py.LF); [discriminate|].
  destruct (Ascii.eqb c Py.CR).
  - destruct r as [|c' r']; [discriminate|].
    destruct (Ascii.eqb c' Py.LF); discriminate.
  - destruct (Py.readlines r); discriminate.
Qed.

Lemma append_LF_not_empty (p s : string) :
  String.append p (String Py.LF s) <> EmptyString.
Proof. destruct p; discriminate. Qed.

(** A line feed is a line boundary wherever it stands, but after a
    carriage return it ends the same line. *)
Lemma readlines_app_LF (p s : string) :
  Py.readlines (String.append p (String Py.LF s))
  = Py.readlines (String.append p (String Py.LF EmptyString)) ++ Py.readlines s.
Proof.
  induction p as [|c r IH]; [reflexivity|].
  cbn [String.append Py.readlines].
  destruct (Ascii.eqb c Py.LF).
  - rewrite IH. reflexivity.
  - destruct (Ascii.eqb c Py.CR).
    + destruct r as [|c' r'].
      * reflexivity.
      * cbn [String.append]. cbn [String.append] in IH.
        destruct (Ascii.eqb c' Py.LF) eqn:Ec'.
        -- cbn [Py.readlines] in IH. rewrite Ec' in IH.
           injection IH as IH. rewrite IH. reflexivity.
        -- rewrite IH. reflexivity.
    + rewrite IH.
      destruct (Py.readlines (String.append r (String Py.LF EmptyString)))
        as [|l ls] eqn:El.
      * exfalso. exact (readlines_not_nil _ (append_LF_not_empty r _) El).
      * reflexivity.
Qed.

(** After a blank line no sentence is in progress. *)
Lemma readCorpus_step_blank_flush (st : Corpus * Sentence) (b : string) :
  blank b = true ->
  readCorpus_step st b = (readCorpus_flush st, []).
Proof.
  intros Hb. destruct st as [c cur].
  rewrite readCorpus_step_blank by exact Hb. simpl.
  destruct cur; reflexivity.
Qed.

(** The end of a file acts as one blank line. *)
Lemma readCorpus_lines_junction (l1 l2 : list string) (b : string) (c : Corpus) :
  blank b = true ->
  readCorpus_lines l2 (readCorpus_lines l1 c)
  = readCorpus_lines (l1 ++ b :: l2) c.
Proof.
  intros Hb. unfold readCorpus_lines.
  rewrite readCorpus_loop_app, readCorpus_loop_cons.
  rewrite readCorpus_step_blank_flush by exact Hb. reflexivity.
Qed.

Lemma readCorpus_lines_after_blank (l1 l2 : list string) (c : Corpus) :
  blank (last l1 EmptyString) = true -> l1 <> [] ->
  readCorpus_lines (l1 ++ l2) c
  = readCorpus_lines l2 (readCorpus_lines l1 c).
Proof.
  intros Hb Hne.
  destruct (exists_last Hne) as [ls [b Hl1]]. subst l1.
  rewrite last_last in Hb.
  rewrite <- app_assoc. simpl.
  rewrite <- (readCorpus_lines_junction ls l2 b c Hb).
  f_equal. unfold readCorpus_lines.
  rewrite readCorpus_loop_app, readCorpus_loop_cons.
  rewrite readCorpus_step_blank_flush by exact Hb.
  simpl. destruct (readCorpus_loop ls (c, [])) as [c1 cur1]. simpl.
  destruct cur1; simpl; reflexivity.
Qed.

(** ** What a method leaves unchanged *)

Section Frame.

Context {G : Gensim}.

Context {X : Type} (proj : State G -> X).

Lemma keeps_ret {A} (a : A) : keeps proj (ret a).
Proof. intros s. reflexivity. Qed.

Lemma keeps_raise {A} (e : pyerr) : keeps proj (@raise G A e).
Proof. intros s. reflexivity. Qed.

Lemma keeps_get : keeps proj get.
Proof. intros s. reflexivity. Qed.

Lemma keeps_lift {A} (r : pyerr + A) : keeps proj (lift r).
Proof. intros s. destruct r; reflexivity. Qed.

Lemma keeps_modify (f : State G -> State G) :
  (forall s, proj (f s) = proj s) -> keeps proj (modify f).
Proof. intros Hf s. simpl. apply Hf. Qed.

Lemma keeps_bind {A B} (c : M G A) (k : A -> M G B) :
  keeps proj c -> (forall a, keeps proj (k a)) -> keeps proj (bind c k).
Proof.
  intros Hc Hk s. unfold bind. specialize (Hc s).
  destruct (c s) as [[e|a] s1]; simpl in *.
  - exact Hc.
  - rewrite Hk. exact Hc.
Qed.

Lemma keeps_when (b : bool) (c : M G unit) :
  keeps proj c -> keeps proj (when b c).
Proof. intros Hc. destruct b; [exact Hc | apply keeps_ret]. Qed.

Lemma keeps_for_each {A} (l : list A) (body : A -> M G unit) :
  (forall x, keeps proj (body x)) -> keeps proj (for_each l body).
Proof.
  intros Hb. induction l as [|x r IH]; simpl.
  - apply keeps_ret.
  - apply keeps_bind; [apply Hb | intros _; exact IH].
Qed.

End Frame.

Lemma outputs_app (t1 t2 : list event) :
  outputs (t1 ++ t2) = outputs t1 ++ outputs t2.
Proof. unfold outputs. apply flat_map_app. Qed.

(** Breaks a method into its steps; a step that updates the state is left
    to [tac]. *)
Ltac frame_with tac :=
  repeat first
    [ apply keeps_ret | apply keeps_raise | apply keeps_get
    | apply keeps_lift
    | apply keeps_when
    | apply keeps_for_each; intros ?
    | apply keeps_bind; [|intros ?]
    | apply keeps_modify; intros ?; tac
    | match goal with
      | |- keeps _ (match ?x with _ => _ end) => destruct x
      end ].

Ltac frame := frame_with ltac:(reflexivity).

Ltac frame_outputs :=
  frame_with ltac:(first [ reflexivity
                         | simpl; rewrite outputs_app; simpl;
                           rewrite app_nil_r; reflexivity ]).

Section Kept.

Context {G : Gensim}.

Lemma readCorpus_keeps {X} (proj : State G -> X) (f : FileObj) :
  (forall c s, proj (set_corpus c s) = proj s) ->
  keeps proj (readCorpus f).
Proof.
  intros Hp. unfold readCorpus.
  frame_with ltac:(apply Hp).
Qed.

Lemma readCorpusFiles_keeps_outputs (fns : list string) :
  keeps (fun s : State G => outputs (trace s)) (readCorpusFiles fns).
Proof.
  unfold readCorpusFiles, open_read, close, sys_stdin.
  destruct (List.length fns =? 0).
  - apply keeps_bind; [frame_outputs|]. intros f.
    apply readCorpus_keeps. reflexivity.
  - apply keeps_for_each. intros fn.
    apply keeps_bind; [frame_outputs|]. intros f.
    apply keeps_bind; [apply readCorpus_keeps; reflexivity|]. intros _.
    frame_outputs.
Qed.

Lemma readCorpusFiles_keeps_model (fns : list string) :
  keeps (fun s : State G => (vst_model s, VST s)) (readCorpusFiles fns).
Proof.
  unfold readCorpusFiles, open_read, close, sys_stdin.
  destruct (List.length fns =? 0).
  - apply keeps_bind; [frame|]. intros f.
    apply readCorpus_keeps. reflexivity.
  - apply keeps_for_each. intros fn.
    apply keeps_bind; [frame|]. intros f.
    apply keeps_bind; [apply readCorpus_keeps; reflexivity|]. intros _.
    frame.
Qed.

Lemma assign_VST_keeps {X} (proj : State G -> X) :
  (forall v s, proj (set_VST v s) = proj s) ->
  keeps proj assign_VST.
Proof.
  intros Hp. unfold assign_VST, self_vst_model.
  frame_with ltac:(apply Hp).
Qed.

Lemma buildVector_keeps_outputs (a : Args.t float) :
  keeps (fun s : State G => outputs (trace s)) (buildVector a).
Proof.
  unfold buildVector, call_FastText_OPT_train, print_stderr, self_vst_model.
  repeat first
    [ apply assign_VST_keeps; reflexivity
    | apply keeps_when
    | apply keeps_bind; [|intros ?]
    | apply keeps_get | apply keeps_lift | apply keeps_raise | apply keeps_ret
    | apply keeps_modify; intros ?;
      first [ reflexivity
            | simpl; rewrite outputs_app; simpl; rewrite app_nil_r;
              reflexivity ]
    | match goal with
      | |- keeps _ (match ?x with _ => _ end) => destruct x
      end ].
Qed.

End Kept.

(** ** [readCorpusFiles] *)

Section Files.

Context {G : Gensim}.

Lemma readCorpusFiles_one (fn : string) (tf : TextFile) (s : State G) :
  files (env s) fn = Some tf ->
  readCorpusFiles [fn] s
  = match failure tf with
    | None => (inr tt, read_done fn tf s)
    | Some e => (inl e, read_failed fn tf s)
    end.
Proof.
  intros Hf.
  unfold readCorpusFiles, for_each, open_read, readCorpus, close, bind, get,
    modify, ret, raise.
  simpl. rewrite Hf. simpl.
  destruct (failure tf) as [e|]; simpl.
  - reflexivity.
  - unfold read_done, release_handle, add_event, alloc_handle, set_corpus.
    simpl. rewrite <- app_assoc. reflexivity.
Qed.

Lemma readCorpusFiles_missing (fn : string) (s : State G) :
  files (env s) fn = None ->
  readCorpusFiles [fn] s = (inl (OSError fn), add_event (EvOpenRead fn None) s).
Proof.
  intros Hf.
  unfold readCorpusFiles, for_each, open_read, bind, get, modify, raise.
  simpl. rewrite Hf. reflexivity.
Qed.

(** The files are read one after the other; the first exception ends the
    loop. *)
Lemma readCorpusFiles_cons (fn fn' : string) (r : list string) (s : State G) :
  readCorpusFiles (fn :: fn' :: r) s
  = match readCorpusFiles [fn] s with
    | (inr _, s1) => readCorpusFiles (fn' :: r) s1
    | (inl e, s1) => (inl e, s1)
    end.
Proof.
  unfold readCorpusFiles. cbn [List.length Nat.eqb for_each]. unfold bind.
  destruct (open_read fn s) as [[e|f] s1]; [reflexivity|].
  destruct (readCorpus f s1) as [[e|[]] s2]; [reflexivity|].
  destruct (close f s2) as [[e|[]] s3]; reflexivity.
Qed.

(** C3, as amended: reading two files in turn gives the corpus of the
    lines of the first file, one blank line, and the lines of the second:
    the end of a file always ends the sentence in progress. It is the
    corpus of the one file that holds the concatenation of the two texts
    when the first text is empty, or ends with a line feed and has a blank
    last line. *)
Theorem C3_two_files_and_their_concatenation
  (s : State G) (fn1 fn2 fn12 : string) (t1 t2 : string) :
  files (env s) fn1 = Some (readable t1) ->
  files (env s) fn2 = Some (readable t2) ->
  files (env s) fn12 = Some (readable (String.append t1 t2)) ->
  fst (readCorpusFiles [fn1; fn2] s) = inr tt
  /\ fst (readCorpusFiles [fn12] s) = inr tt
  /\ corpus (snd (readCorpusFiles [fn1; fn2] s))
     = readCorpus_lines
         (Py.readlines t1 ++ EmptyString :: Py.readlines t2) (corpus s)
  /\ (t1 = EmptyString
      \/ (exists p, t1 = String.append p (String Py.LF EmptyString))
         /\ blank (last (Py.readlines t1) EmptyString) = true ->
      corpus (snd (readCorpusFiles [fn1; fn2] s))
      = corpus (snd (readCorpusFiles [fn12] s))).
Proof.
  intros H1 H2 H12.
  rewrite readCorpusFiles_cons.
  rewrite (readCorpusFiles_one fn1 _ s H1). cbn [failure readable].
  rewrite (readCorpusFiles_one fn2 _ (read_done fn1 (readable t1) s) H2).
  rewrite (readCorpusFiles_one fn12 _ s H12). cbn [failure readable].
  cbn [fst snd corpus read_done text readable].
  split; [reflexivity|]. split; [reflexivity|]. split.
  - apply readCorpus_lines_junction. reflexivity.
  - intros [Ht1 | [[p Hp] Hb]].
    + subst t1. reflexivity.
    + assert (Hl : Py.readlines (String.append t1 t2)
                   = Py.readlines t1 ++ Py.readlines t2).
      { rewrite Hp, append_assoc. simpl String.append.
        apply readlines_app_LF. }
      rewrite Hl. symmetry. apply readCorpus_lines_after_blank; [exact Hb|].
      apply readlines_not_nil. rewrite Hp. apply append_LF_not_empty.
Qed.

End Files.

(** ** The option [--fastTextHome] *)

Lemma _parse_int_slash (v : string) : OptParse._parse_int (String "/" v) = None.
Proof. destruct v; reflexivity. Qed.

(** C5: [--fastTextHome] has no default, but the option is declared with
    [type='int']: its argument goes through the integer conversion. Every
    value that begins with a slash, as an absolute path does, ends the
    parse with exit status 2; ["/opt/fastText"] is one; and what the option
    stores is the integer read from its argument. *)
Theorem C5_fastTextHome_takes_an_integer :
  Options.fastTextHome Options.defaults = None
  /\ (forall (v : string) (rest : list string),
        OptParse.parse_args ("--fastTextHome" :: String "/" v :: rest)
        = inl (SystemExit 2))
  /\ OptParse.parse_args ["--fastTextHome"; "/opt/fastText"]
     = inl (SystemExit 2)
  /\ OptParse.parse_args ["--fastTextHome=/opt/fastText"]
     = inl (SystemExit 2)
  /\ OptParse.parse_args ["--fastTextHome"; "0x10"]
     = inr (Options.set_fastTextHome 16 Options.defaults, []).
Proof.
  split; [reflexivity|]. split; [|split; [|split]].
  - intros v rest. unfold OptParse.parse_args.
    cbn [OptParse._process_args]. simpl String.eqb. simpl String.prefix.
    cbv iota. simpl OptParse.split_eq. cbv iota beta.
    change (OptParse._match_abbrev "--fastTextHome")
      with (Some (OptParse.store_int Options.set_fastTextHome)).
    cbv iota beta. unfold OptParse.store. rewrite _parse_int_slash.
    reflexivity.
  - reflexivity.
  - reflexivity.
  - reflexivity.
Qed.

(** ** [buildVector] *)

Section Dispatcher.

Context {G : Gensim}.

(** C1: for a method that contains "fasttext" and "optimized" (and not
    "word2vec") both branches run in turn (the external tool is run, on its
    own files), but the optimized branch drops the model the external tool
    returns: whatever that model [o] is, the object ends with the model
    [m3] of the plain fastText branch, and the vector space is computed,
    twice, from [m3]. *)
Theorem C1_optimized_branch_keeps_plain_model
  (a : Args.t float) (s : State G) (m1 m2 m3 o : Model) (v : Vst float) :
  method_has (Args.method a) "word2vec" = false ->
  method_has (Args.method a) "fasttext" = true ->
  method_has (Args.method a) "optimized" = true ->
  FastText_init (fasttext_args a) = inr m1 ->
  build_vocab m1 (corpus s) = inr m2 ->
  train m2 (corpus s) (Args.workerNum a) = inr m3 ->
  FastText_OPT_train (optimized_args a (corpus s)) = inr o ->
  vocabulary_dict m3 = inr v ->
  buildVector a s
  = (inr tt,
     mkState (env s) (corpus s) (Some m3) (Some v)
       (stderr s ++ stderr_fasttext_twice)
       (next_handle s) (open_handles s)
       (trace s
        ++ [EvExternal (FastText_OPT_files (optimized_args a (corpus s)))])).
Proof.
  intros Hw Hf Ho H1 H2 H3 H4 Hv.
  unfold buildVector. rewrite Hw, Hf, Ho.
  unfold when, andb, call_FastText_OPT_train, print_stderr, assign_VST,
    self_vst_model, bind, get, modify, ret.
  simpl. rewrite H1. simpl. rewrite H2. simpl. rewrite H3. simpl.
  rewrite Hv. simpl. rewrite H4. simpl. rewrite Hv. simpl.
  destruct s as [e c vm vs st nh oh tr].
  cbv [set_VST set_vst_model add_stderr add_event env corpus vst_model VST
       stderr next_handle open_handles trace].
  repeat rewrite <- app_assoc. reflexivity.
Qed.

(** With no recognised method no branch runs: [buildVector] prints its
    first line and returns. *)
Lemma buildVector_no_method (a : Args.t float) (s : State G) :
  method_has (Args.method a) "word2vec" = false ->
  method_has (Args.method a) "fasttext" = false ->
  buildVector a s
  = (inr tt, add_stderr "Building the embeddings vectors..." s).
Proof.
  intros Hw Hf. unfold buildVector. rewrite Hw, Hf. reflexivity.
Qed.

End Dispatcher.

(** ** The writers *)

Section Writers.

Context {G : Gensim}.

Lemma writeJSON_None (s : State G) : writeJSON None s = (inr tt, s).
Proof. reflexivity. Qed.

Lemma writeTxt_None (s : State G) : writeTxt None s = (inr tt, s).
Proof. reflexivity. Qed.

Lemma writeBin_None (s : State G) : writeBin None s = (inr tt, s).
Proof. reflexivity. Qed.

Lemma writeJSON_unwritable (fn : string) (s : State G) :
  writable (env s) fn = false ->
  writeJSON (Some fn) s
  = (inl (OSError fn), add_event (EvOpenWrite fn (json_mode fn) None) s).
Proof.
  intros Hw. unfold writeJSON, json_mode, open_write, bind, get, modify, raise.
  destruct (Py.endswith fn ".gz"); rewrite Hw; reflexivity.
Qed.

Lemma writeJSON_unset (fn : string) (s : State G) :
  writable (env s) fn = true -> VST s = None ->
  writeJSON (Some fn) s
  = (inl (AttributeError "VST"), opened fn (json_mode fn) s).
Proof.
  intros Hw Hv.
  unfold writeJSON, json_mode, open_write, self_VST, bind, get, modify, ret,
    raise.
  destruct (Py.endswith fn ".gz"); rewrite Hw; simpl; rewrite Hv; reflexivity.
Qed.

(** What [writeJSON] does once the file is open and [self.VST] is set. *)
Lemma writeJSON_set (fn : string) (s : State G) (vst : Vst float) :
  writable (env s) fn = true -> VST s = Some vst ->
  writeJSON (Some fn) s
  = if Py.endswith fn ".gz"
    then if write_fails (env s) (trace (opened fn GzipMode s))
         then (inl (OSError fn), opened fn GzipMode s)
         else (if close_fails (env s)
                    (trace (add_event
                              (EvWrite (next_handle s)
                                 (Bytes (encode_utf8 (json_dumps vst))))
                              (opened fn GzipMode s)))
               then inl (OSError fn) else inr tt,
               add_event (EvClose (next_handle s))
                 (release_handle (next_handle s)
                    (add_event (EvWrite (next_handle s)
                                  (Bytes (encode_utf8 (json_dumps vst))))
                       (opened fn GzipMode s))))
    else (inl (TypeError "write() argument must be str, not bytes"),
          opened fn TextMode s).
Proof.
  intros Hw Hv.
  unfold writeJSON, open_write, self_VST, write, close, bind, get, modify,
    ret, raise.
  destruct (Py.endswith fn ".gz"); rewrite Hw; cbn -[encode_utf8 json_dumps];
    rewrite Hv; cbn -[encode_utf8 json_dumps]; [|reflexivity].
  destruct (write_fails (env s) _); [reflexivity|].
  cbn -[encode_utf8 json_dumps].
  destruct (close_fails (env s) _); reflexivity.
Qed.

(** C7: with the vector space set and the file opened, [writeJSON] writes
    the JSON text, as bytes, only to a path that ends in ".gz" (through
    gzip, when the write itself does not fail; the file is then closed,
    and the call returns normally unless the flush of [f.close()] fails);
    for any other path the file is opened in text mode, the write of bytes
    raises [TypeError], nothing is written and the file stays open. *)
Theorem C7_writeJSON_writes_only_gzip
  (fn : string) (s : State G) (vst : Vst float) :
  writable (env s) fn = true -> VST s = Some vst ->
  (Py.endswith fn ".gz" = true ->
   write_fails (env s)
     (trace s ++ [EvOpenWrite fn GzipMode (Some (next_handle s))]) = false ->
   fst (writeJSON (Some fn) s)
   = (if close_fails (env s)
           (trace s ++ [ EvOpenWrite fn GzipMode (Some (next_handle s));
                         EvWrite (next_handle s)
                           (Bytes (encode_utf8 (json_dumps vst))) ])
      then inl (OSError fn) else inr tt)
   /\ trace (snd (writeJSON (Some fn) s))
      = trace s ++ [ EvOpenWrite fn GzipMode (Some (next_handle s));
                     EvWrite (next_handle s)
                       (Bytes (encode_utf8 (json_dumps vst)));
                     EvClose (next_handle s) ])
  /\ (Py.endswith fn ".gz" = false ->
      fst (writeJSON (Some fn) s)
      = inl (TypeError "write() argument must be str, not bytes")
      /\ trace (snd (writeJSON (Some fn) s))
         = trace s ++ [EvOpenWrite fn TextMode (Some (next_handle s))]
      /\ In (next_handle s) (open_handles (snd (writeJSON (Some fn) s)))).
Proof.
  intros Hw Hv. rewrite (writeJSON_set fn s vst Hw Hv).
  split.
  - intros Hgz Hio. rewrite Hgz. cbn [opened add_event alloc_handle trace].
    rewrite Hio. cbn -[encode_utf8 json_dumps].
    repeat rewrite <- app_assoc. split; reflexivity.
  - intros Hgz. rewrite Hgz. simpl.
    split; [reflexivity|]. split; [reflexivity|]. left. reflexivity.
Qed.

End Writers.

(** ** File handles *)

Section Handles.

Context {G : Gensim}.

Lemma writeJSON_shape (fn : string) (s : State G) :
  writeJSON (Some fn) s = open_use_close fn (json_mode fn) json_body s.
Proof.
  unfold writeJSON, open_use_close, json_body, json_mode, bind.
  destruct (Py.endswith fn ".gz");
    (destruct (open_write fn _ s) as [[e|f] s1]; [reflexivity|]);
    (destruct (self_VST s1) as [[e|vst] s2]; [reflexivity|]);
    reflexivity.
Qed.

Lemma writeTxt_shape (fn : string) (s : State G) :
  writeTxt (Some fn) s = open_use_close fn TextMode txt_body s.
Proof.
  unfold writeTxt, open_use_close, txt_body, bind.
  destruct (open_write fn _ s) as [[e|f] s1]; [reflexivity|].
  destruct (self_VST s1) as [[e|vst] s2]; [reflexivity|].
  reflexivity.
Qed.

Lemma write_keeps {X} (proj : State G -> X) (f : FileObj) (d : data) :
  (forall h d s, proj (add_event (EvWrite h d) s) = proj s) ->
  keeps proj (write f d).
Proof.
  intros Hp. unfold write.
  destruct (f_mode f), d; frame_with ltac:(apply Hp).
Qed.

Lemma json_body_keeps {X} (proj : State G -> X) (f : FileObj) :
  (forall h d s, proj (add_event (EvWrite h d) s) = proj s) ->
  keeps proj (json_body f).
Proof.
  intros Hp. unfold json_body, self_VST.
  repeat first [ apply write_keeps; exact Hp
               | progress frame_with ltac:(apply Hp) ].
Qed.

Lemma txt_body_keeps {X} (proj : State G -> X) (f : FileObj) :
  (forall h d s, proj (add_event (EvWrite h d) s) = proj s) ->
  keeps proj (txt_body f).
Proof.
  intros Hp. unfold txt_body, self_VST.
  repeat first [ apply write_keeps; exact Hp
               | progress frame_with ltac:(apply Hp) ].
Qed.

Lemma in_remove_cons (h x : nat) (l : list nat) :
  In x (List.remove Nat.eq_dec h (h :: l)) -> In x l.
Proof.
  intros Hin. apply in_remove in Hin. destruct Hin as [[Heq|Hin] Hne].
  - congruence.
  - exact Hin.
Qed.

(** *** Methods that only write *)

Lemma only_writes_keeps {A} (c : M G A) : keeps (@trace G) c -> only_writes c.
Proof.
  intros Hk s. exists []. rewrite app_nil_r. split; [apply Hk | reflexivity].
Qed.

Lemma only_writes_bind {A B} (c : M G A) (k : A -> M G B) :
  only_writes c -> (forall a, only_writes (k a)) -> only_writes (bind c k).
Proof.
  intros Hc Hk s. unfold bind. destruct (Hc s) as [evs [Ht Hw]].
  destruct (c s) as [[e|a] s1]; simpl in *.
  - exists evs. split; assumption.
  - destruct (Hk a s1) as [evs' [Ht' Hw']].
    exists (evs ++ evs'). split.
    + rewrite Ht', Ht, app_assoc. reflexivity.
    + rewrite forallb_app, Hw, Hw'. reflexivity.
Qed.

Lemma only_writes_for_each {A} (l : list A) (body : A -> M G unit) :
  (forall x, only_writes (body x)) -> only_writes (for_each l body).
Proof.
  intros Hb. induction l as [|x r IH]; simpl.
  - apply only_writes_keeps. apply keeps_ret.
  - apply only_writes_bind; [apply Hb | intros _; exact IH].
Qed.

Lemma write_only_writes (f : FileObj) (d : data) : only_writes (write f d).
Proof.
  intros s. unfold write, bind, get, modify, raise.
  assert (H0 : exists evs : list event,
            trace s = trace s ++ evs /\ forallb is_write evs = true).
  { exists []. rewrite app_nil_r. split; reflexivity. }
  destruct (f_mode f), d; try exact H0; simpl;
    (destruct (write_fails (env s) (trace s)); [exact H0|];
     eexists; split; reflexivity).
Qed.

Lemma self_VST_keeps {X} (proj : State G -> X) : keeps proj self_VST.
Proof. unfold self_VST. frame. Qed.

Lemma json_body_only_writes (f : FileObj) : only_writes (json_body f).
Proof.
  unfold json_body. apply only_writes_bind.
  - apply only_writes_keeps, self_VST_keeps.
  - intros vst. apply write_only_writes.
Qed.

Lemma txt_body_only_writes (f : FileObj) : only_writes (txt_body f).
Proof.
  unfold txt_body. apply only_writes_bind.
  - apply only_writes_keeps, self_VST_keeps.
  - intros vst. apply only_writes_for_each. intros kv.
    repeat (apply only_writes_bind; [apply write_only_writes | intros _]).
    apply write_only_writes.
Qed.

Lemma open_use_close_writable
  (fn : string) (m : mode) (body : FileObj -> M G unit) (s : State G) :
  writable (env s) fn = true ->
  open_use_close fn m body s
  = match body (output_file fn m (next_handle s)) (opened fn m s) with
    | (inl e, s2) => (inl e, s2)
    | (inr _, s2) => close (output_file fn m (next_handle s)) s2
    end.
Proof.
  intros Hw. unfold open_use_close, open_write, bind, get, modify, ret.
  rewrite Hw. reflexivity.
Qed.

(** A file opened for writing, used, then closed: the body raised and the
    file object is left open, or [f.close()] was reached and the file
    object is closed. *)
Lemma open_use_close_cases
  (fn : string) (m : mode) (body : FileObj -> M G unit) (s : State G) :
  (forall f, keeps (@open_handles G) (body f)) ->
  (forall f, keeps (@env G) (body f)) ->
  (forall f, only_writes (body f)) ->
  writable (env s) fn = true ->
  (left_open fn m s (snd (open_use_close fn m body s))
   /\ exists e, fst (open_use_close fn m body s) = inl e)
  \/ closed_after fn m (fst (open_use_close fn m body s)) s
       (snd (open_use_close fn m body s)).
Proof.
  intros Hh He Ht Hw.
  rewrite (open_use_close_writable fn m body s Hw).
  specialize (Hh (output_file fn m (next_handle s)) (opened fn m s)).
  specialize (He (output_file fn m (next_handle s)) (opened fn m s)).
  destruct (Ht (output_file fn m (next_handle s)) (opened fn m s))
    as [evs [Htr Hws]].
  destruct (body (output_file fn m (next_handle s)) (opened fn m s))
    as [[e|[]] s2]; simpl in Hh, He, Htr; rewrite <- app_assoc in Htr;
    cbn [app] in Htr.
  - left. split; [|exists e; reflexivity].
    exists evs. split; [exact Hws|]. cbn [fst snd]. split; assumption.
  - right. exists evs. split; [exact Hws|].
    unfold close, bind, get, modify, output_file.
    cbn [f_output handle f_name andb].
    rewrite He, Htr.
    destruct (close_fails (env s) _); cbn [fst snd raise ret];
      (split; [cbn [trace add_event release_handle]; rewrite Htr;
               rewrite <- !app_assoc; reflexivity|]);
      (split; [cbn [open_handles add_event release_handle]; rewrite Hh;
               reflexivity | reflexivity]).
Qed.

(** The handle is closed when the writer returns. *)
Lemma open_use_close_handles
  (fn : string) (m : mode) (body : FileObj -> M G unit) (s s' : State G) :
  (forall f, keeps (@open_handles G) (body f)) ->
  open_use_close fn m body s = (inr tt, s') ->
  open_handles s'
  = List.remove Nat.eq_dec (next_handle s) (next_handle s :: open_handles s).
Proof.
  intros Hbody. unfold open_use_close, open_write, bind, get, modify, raise.
  destruct (writable (env s) fn); [|discriminate].
  cbn [ret].
  match goal with
  | |- context [body ?f ?s1] =>
      specialize (Hbody f s1); destruct (body f s1) as [[e|[]] s2]
  end; [discriminate|].
  simpl in Hbody. unfold close, bind, get, modify.
  cbn [f_output andb].
  destruct (close_fails (env s2) (trace s2)); cbn [raise ret];
    [discriminate|].
  intros H. injection H as <-. simpl. rewrite Hbody. reflexivity.
Qed.

Lemma readCorpusFiles_stdin_keeps_handles (s : State G) :
  open_handles (snd (readCorpusFiles [] s)) = open_handles s.
Proof.
  assert (H : keeps (@open_handles G) (readCorpusFiles [])).
  { unfold readCorpusFiles, sys_stdin. cbn [List.length Nat.eqb].
    apply keeps_bind; [frame|]. intros f.
    apply readCorpus_keeps. reflexivity. }
  apply H.
Qed.

Lemma readCorpusFiles_one_closes (fn : string) (s s' : State G) :
  readCorpusFiles [fn] s = (inr tt, s') ->
  forall h, In h (open_handles s') -> In h (open_handles s).
Proof.
  intros Hrun h Hin.
  destruct (files (env s) fn) as [tf|] eqn:Hf.
  - rewrite (readCorpusFiles_one fn tf s Hf) in Hrun.
    destruct (failure tf); [discriminate|].
    injection Hrun as <-. apply (in_remove_cons (next_handle s)). exact Hin.
  - rewrite (readCorpusFiles_missing fn s Hf) in Hrun. discriminate.
Qed.

Lemma readCorpusFiles_closes (r : list string) :
  forall (fn : string) (s s' : State G),
    readCorpusFiles (fn :: r) s = (inr tt, s') ->
    forall h, In h (open_handles s') -> In h (open_handles s).
Proof.
  induction r as [|fn' r IH]; intros fn s s' Hrun h Hin.
  - exact (readCorpusFiles_one_closes fn s s' Hrun h Hin).
  - rewrite readCorpusFiles_cons in Hrun.
    destruct (readCorpusFiles [fn] s) as [[e|[]] s1] eqn:H1; [discriminate|].
    apply (readCorpusFiles_one_closes fn s s1 H1).
    apply (IH fn' s1 s' Hrun). exact Hin.
Qed.

(** C6, as amended: a file handle that [readCorpusFiles], [writeJSON] or
    [writeTxt] acquires is closed when the call returns normally (no handle
    is open afterwards that was not open before). There is no scoped
    acquisition: when the body raises after the file was opened (while the
    corpus file is read, or in a write), [f.close()] is not reached and the
    handle is left open. The one exception that leaves the file closed is
    that of [f.close()] itself, the [OSError] of a flush that fails; so a
    writer that raised after its open either only wrote and left the file
    open, or closed it and raised that [OSError]; the latter is what
    happens to a gzip output whose write succeeded when the flush fails. *)
Theorem C6_handles_closed_on_normal_return :
  (forall (fns : list string) (s s' : State G),
      readCorpusFiles fns s = (inr tt, s') ->
      forall h, In h (open_handles s') -> In h (open_handles s))
  /\ (forall (o : option string) (s s' : State G),
        writeJSON o s = (inr tt, s') ->
        forall h, In h (open_handles s') -> In h (open_handles s))
  /\ (forall (o : option string) (s s' : State G),
        writeTxt o s = (inr tt, s') ->
        forall h, In h (open_handles s') -> In h (open_handles s))
  /\ (forall (fn : string) (tf : TextFile) (e : pyerr) (s : State G),
        files (env s) fn = Some tf -> failure tf = Some e ->
        fst (readCorpusFiles [fn] s) = inl e
        /\ open_handles (snd (readCorpusFiles [fn] s))
           = next_handle s :: open_handles s)
  /\ (forall (fn : string) (e : pyerr) (s s' : State G),
        writable (env s) fn = true ->
        writeJSON (Some fn) s = (inl e, s') ->
        left_open fn (json_mode fn) s s'
        \/ closed_after fn (json_mode fn) (inl (OSError fn)) s s'
           /\ e = OSError fn)
  /\ (forall (fn : string) (e : pyerr) (s s' : State G),
        writable (env s) fn = true ->
        writeTxt (Some fn) s = (inl e, s') ->
        left_open fn TextMode s s'
        \/ closed_after fn TextMode (inl (OSError fn)) s s'
           /\ e = OSError fn)
  /\ (forall (fn : string) (vst : Vst float) (s : State G),
        writable (env s) fn = true -> VST s = Some vst ->
        Py.endswith fn ".gz" = true ->
        write_fails (env s)
          (trace s ++ [EvOpenWrite fn GzipMode (Some (next_handle s))]) = false ->
        close_fails (env s)
          (trace s ++ [ EvOpenWrite fn GzipMode (Some (next_handle s));
                        EvWrite (next_handle s)
                          (Bytes (encode_utf8 (json_dumps vst))) ]) = true ->
        fst (writeJSON (Some fn) s) = inl (OSError fn)
        /\ open_handles (snd (writeJSON (Some fn) s))
           = List.remove Nat.eq_dec (next_handle s)
               (next_handle s :: open_handles s)).
Proof.
  assert (Hraised : forall (fn : string) (m : mode)
            (body : FileObj -> M G unit) (e : pyerr) (s s' : State G),
            (forall f, keeps (@open_handles G) (body f)) ->
            (forall f, keeps (@env G) (body f)) ->
            (forall f, only_writes (body f)) ->
            writable (env s) fn = true ->
            open_use_close fn m body s = (inl e, s') ->
            left_open fn m s s'
            \/ closed_after fn m (inl (OSError fn)) s s' /\ e = OSError fn).
  { intros fn m body e s s' Hh He Ht Hw Hrun.
    destruct (open_use_close_cases fn m body s Hh He Ht Hw) as [[Hl _]|Hc];
      rewrite Hrun in *; cbn [fst snd] in *.
    - left. exact Hl.
    - right. destruct Hc as [evs [Hws [Htr [Hoh Hr]]]].
      destruct (close_fails (env s) _) eqn:Hcf; [|discriminate].
      injection Hr as ->. split; [|reflexivity].
      exists evs. split; [exact Hws|]. split; [exact Htr|].
      split; [exact Hoh|]. rewrite Hcf. reflexivity. }
  split; [|split; [|split; [|split; [|split; [|split]]]]].
  - intros [|fn r] s s' Hrun h Hin.
    + rewrite <- (readCorpusFiles_stdin_keeps_handles s), Hrun. exact Hin.
    + exact (readCorpusFiles_closes r fn s s' Hrun h Hin).
  - intros [fn|] s s' Hrun h Hin.
    + rewrite writeJSON_shape in Hrun.
      rewrite (open_use_close_handles fn (json_mode fn) json_body s s'
                 (fun f => json_body_keeps (@open_handles G) f
                             (fun _ _ _ => eq_refl)) Hrun) in Hin.
      exact (in_remove_cons _ _ _ Hin).
    + injection Hrun as <-. exact Hin.
  - intros [fn|] s s' Hrun h Hin.
    + rewrite writeTxt_shape in Hrun.
      rewrite (open_use_close_handles fn TextMode txt_body s s'
                 (fun f => txt_body_keeps (@open_handles G) f
                             (fun _ _ _ => eq_refl)) Hrun) in Hin.
      exact (in_remove_cons _ _ _ Hin).
    + injection Hrun as <-. exact Hin.
  - intros fn tf e s Hf He.
    rewrite (readCorpusFiles_one fn tf s Hf), He. split; reflexivity.
  - intros fn e s s' Hw Hrun. rewrite writeJSON_shape in Hrun.
    apply (Hraised fn (json_mode fn) json_body e s s'); try assumption.
    + intros f. apply json_body_keeps. reflexivity.
    + intros f. apply json_body_keeps. reflexivity.
    + apply json_body_only_writes.
  - intros fn e s s' Hw Hrun. rewrite writeTxt_shape in Hrun.
    apply (Hraised fn TextMode txt_body e s s'); try assumption.
    + intros f. apply txt_body_keeps. reflexivity.
    + intros f. apply txt_body_keeps. reflexivity.
    + apply txt_body_only_writes.
  - intros fn vst s Hw Hv Hgz Hio Hcl.
    rewrite (writeJSON_set fn s vst Hw Hv), Hgz.
    cbn [opened add_event alloc_handle trace].
    rewrite Hio. cbn [trace add_event]. rewrite <- app_assoc. cbn [app].
    rewrite Hcl. split; reflexivity.
Qed.

End Handles.

(** ** The output paths of a run *)

Section Run.

Context {G : Gensim}.



Lemma outputs_add_event (ev : event) (s : State G) :
  outputs (trace (add_event ev s)) = outputs (trace s) ++ output_of ev.
Proof. simpl. rewrite outputs_app. simpl. rewrite app_nil_r. reflexivity. Qed.






Lemma writeBin_unset (fn : string) (s : State G) :
  vst_model s = None ->
  writeBin (Some fn) s = (inl (AttributeError "vst_model"), s).
Proof.
  intros Hm. unfold writeBin, self_vst_model, bind, get, raise.
  rewrite Hm. reflexivity.
Qed.





Lemma run_parsed (s : State G) (o : Options.t) (args : list string) :
  OptParse.parse_args (argv (env s)) = inr (o, args) ->
  run s = pipeline o args s.
Proof.
  intros Hp. unfold run, bind at 1, get. unfold bind at 1.
  rewrite Hp. reflexivity.
Qed.

Lemma run_not_parsed (s : State G) (e : pyerr) :
  OptParse.parse_args (argv (env s)) = inl e ->
  run s = (inl e, s).
Proof.
  intros Hp. unfold run, bind at 1, get. unfold bind at 1.
  rewrite Hp. reflexivity.
Qed.










Lemma writeTxt_unwritable (fn : string) (s : State G) :
  writable (env s) fn = false ->
  writeTxt (Some fn) s
  = (inl (OSError fn), add_event (EvOpenWrite fn TextMode None) s).
Proof.
  intros Hw. unfold writeTxt, open_write, bind, get, modify, raise.
  rewrite Hw. reflexivity.
Qed.

Lemma writeTxt_unset (fn : string) (s : State G) :
  writable (env s) fn = true -> VST s = None ->
  writeTxt (Some fn) s = (inl (AttributeError "VST"), opened fn TextMode s).
Proof.
  intros Hw Hv.
  unfold writeTxt, open_write, self_VST, bind, get, modify, ret, raise.
  rewrite Hw. simpl. rewrite Hv. reflexivity.
Qed.

Lemma readCorpusFiles_keeps_env (fns : list string) :
  keeps (@env G) (readCorpusFiles fns).
Proof.
  unfold readCorpusFiles, open_read, close, sys_stdin.
  destruct (List.length fns =? 0).
  - apply keeps_bind; [frame|]. intros f.
    apply readCorpus_keeps. reflexivity.
  - apply keeps_for_each. intros fn.
    apply keeps_bind; [frame|]. intros f.
    apply keeps_bind; [apply readCorpus_keeps; reflexivity|]. intros _.
    frame.
Qed.

(** C2, as amended: when [--method] is unset or names no recognised
    method, [buildVector] trains nothing and returns normally, and the
    model and the vector space stay unset; no configuration error exists.
    A run that read its corpus then ends normally, with no output, when no
    output path was given. With an output path it fails at the first
    writer given one, in the order JSON, text, binary: [writeJSON] or
    [writeTxt] with [AttributeError] on [self.VST] after it opened its
    file, which stays open (or with the error of the open), [writeBin]
    with [AttributeError] on [self.vst_model] before anything is saved; so
    the only path such a run tries to create is the first of the JSON and
    text paths given. *)
Theorem C2_no_method_is_no_configuration_error
  (e : Env) (o : Options.t) (args : list string) (s1 : State G) :
  OptParse.parse_args (argv e) = inr (o, args) ->
  method_has (Options.method o) "word2vec" = false ->
  method_has (Options.method o) "fasttext" = false ->
  readCorpusFiles args (init e) = (inr tt, s1) ->
  buildVector (build_args o) s1 = (inr tt, untrained s1)
  /\ vst_model (snd (run (init e))) = None
  /\ VST (snd (run (init e))) = None
  /\ run (init e)
     = match Options.json o, Options.txt o, Options.bin o with
       | Some p, _, _ =>
           if writable e p
           then (inl (AttributeError "VST"),
                 opened p (json_mode p) (untrained s1))
           else (inl (OSError p),
                 add_event (EvOpenWrite p (json_mode p) None) (untrained s1))
       | None, Some p, _ =>
           if writable e p
           then (inl (AttributeError "VST"), opened p TextMode (untrained s1))
           else (inl (OSError p),
                 add_event (EvOpenWrite p TextMode None) (untrained s1))
       | None, None, Some p => (inl (AttributeError "vst_model"), untrained s1)
       | None, None, None => (inr tt, untrained s1)
       end
  /\ outputs (trace (snd (run (init e))))
     = firstn 1 (opt_list (Options.json o) ++ opt_list (Options.txt o))
  /\ (supplied o = [] -> fst (run (init e)) = inr tt)
  /\ (supplied o <> [] ->
      exists err, fst (run (init e)) = inl err /\ unset_error err).
Proof.
  intros Hp Hw Hf Hread.
  assert (Hb : buildVector (build_args o) s1 = (inr tt, untrained s1)).
  { apply buildVector_no_method; assumption. }
  split; [exact Hb|].
  pose proof (readCorpusFiles_keeps_model args (init e)) as Hk.
  rewrite Hread in Hk. simpl in Hk. injection Hk as Hm Hv.
  pose proof (readCorpusFiles_keeps_env args (init e)) as He.
  rewrite Hread in He. simpl in He.
  pose proof (readCorpusFiles_keeps_outputs args (init e)) as Hout.
  rewrite Hread in Hout. simpl in Hout.
  assert (Hrun : run (init e)
                 = (writeJSON (Options.json o) ;;
                    writeTxt (Options.txt o) ;;
                    writeBin (Options.bin o)) (untrained s1)).
  { rewrite (run_parsed (init e) o args Hp).
    unfold pipeline. unfold bind at 1. rewrite Hread.
    unfold bind at 1. rewrite Hb. reflexivity. }
  assert (Hwr : forall p, writable (env (untrained s1)) p = writable e p).
  { intros p. simpl. rewrite He. reflexivity. }
  assert (Heq : run (init e)
     = match Options.json o, Options.txt o, Options.bin o with
       | Some p, _, _ =>
           if writable e p
           then (inl (AttributeError "VST"),
                 opened p (json_mode p) (untrained s1))
           else (inl (OSError p),
                 add_event (EvOpenWrite p (json_mode p) None) (untrained s1))
       | None, Some p, _ =>
           if writable e p
           then (inl (AttributeError "VST"), opened p TextMode (untrained s1))
           else (inl (OSError p),
                 add_event (EvOpenWrite p TextMode None) (untrained s1))
       | None, None, Some p => (inl (AttributeError "vst_model"), untrained s1)
       | None, None, None => (inr tt, untrained s1)
       end).
  { rewrite Hrun. unfold bind.
    destruct (Options.json o) as [pj|].
    { destruct (writable e pj) eqn:Hj.
      - rewrite (writeJSON_unset pj (untrained s1));
          [reflexivity | rewrite Hwr; exact Hj | exact Hv].
      - rewrite (writeJSON_unwritable pj (untrained s1));
          [reflexivity | rewrite Hwr; exact Hj]. }
    rewrite writeJSON_None.
    destruct (Options.txt o) as [pt|].
    { destruct (writable e pt) eqn:Ht.
      - rewrite (writeTxt_unset pt (untrained s1));
          [reflexivity | rewrite Hwr; exact Ht | exact Hv].
      - rewrite (writeTxt_unwritable pt (untrained s1));
          [reflexivity | rewrite Hwr; exact Ht]. }
    rewrite writeTxt_None.
    destruct (Options.bin o) as [pb|].
    { rewrite (writeBin_unset pb (untrained s1) Hm). reflexivity. }
    rewrite writeBin_None. reflexivity. }
  rewrite Heq. clear Heq Hrun. unfold supplied.
  assert (Hopen : forall p m,
            outputs (trace (opened p m (untrained s1))) = [p]).
  { intros p m. unfold opened. rewrite outputs_add_event. simpl.
    rewrite Hout. reflexivity. }
  assert (Hfail : forall p m,
            outputs (trace (add_event (EvOpenWrite p m None) (untrained s1)))
            = [p]).
  { intros p m. rewrite outputs_add_event. simpl. rewrite Hout. reflexivity. }
  destruct (Options.json o) as [pj|];
    [|destruct (Options.txt o) as [pt|];
      [|destruct (Options.bin o) as [pb|]]];
    try destruct (writable e _);
    cbn [fst snd opt_list app firstn];
    rewrite ?Hopen, ?Hfail;
    (split; [exact Hm|]); (split; [exact Hv|]); (split; [reflexivity|]);
    (split; [first [reflexivity | exact Hout]|]);
    (split;
     [ intros H; first [discriminate H | reflexivity]
     | intros H;
       first [ exfalso; apply H; reflexivity
             | eexists; split;
               [ reflexivity
               | first [ left; reflexivity
                       | right; left; reflexivity
                       | right; right; eexists; reflexivity ] ] ] ]).
Qed.

End Run.

(** * Concrete runs *)

Lemma C4_witness :
  f_failure Runs.two_sentences = None
  /\ readCorpus Runs.two_sentences Runs.fresh
     = (inr tt, set_corpus [["the cat"; "sat"]; ["dog ran"]] Runs.fresh).
Proof.
  split; [reflexivity|].
  exact (proj1 (C4_readCorpus_parsing_rule Runs.two_sentences Runs.fresh
                  eq_refl)).
Defined.

Lemma C9_witness :
  f_failure Runs.blank_lines = None
  /\ Forall (fun l => Py.strip l = EmptyString) (f_lines Runs.blank_lines)
  /\ readCorpus Runs.blank_lines Runs.with_corpus = (inr tt, Runs.with_corpus).
Proof.
  assert (Hb : Forall (fun l => Py.strip l = EmptyString)
                 (f_lines Runs.blank_lines)).
  { repeat constructor. }
  split; [reflexivity|]. split; [exact Hb|].
  exact (C9_blank_stream_adds_nothing Runs.blank_lines Runs.with_corpus
           eq_refl Hb).
Defined.

(** The plain fastText model survives the optimized branch: the model of
    the external tool, named ["fasttext skipgram"] here, is not the one
    kept. *)
Lemma C1_witness :
  method_has (Args.method Runs.args_optimized) "word2vec" = false
  /\ method_has (Args.method Runs.args_optimized) "fasttext" = true
  /\ method_has (Args.method Runs.args_optimized) "optimized" = true
  /\ (exists o, FastText_OPT_train
                  (optimized_args Runs.args_optimized (corpus Runs.with_corpus))
                = inr o /\ Toy.name o = "fasttext skipgram")
  /\ exists m3 v,
       buildVector Runs.args_optimized Runs.with_corpus
       = (inr tt,
          mkState (env Runs.with_corpus) (corpus Runs.with_corpus)
            (Some m3) (Some v)
            (stderr Runs.with_corpus ++ stderr_fasttext_twice)
            (next_handle Runs.with_corpus) (open_handles Runs.with_corpus)
            [EvExternal ["ft_model.bin"; "ft_model.vec"]])
       /\ Toy.name m3 = "FastText".
Proof.
  split; [reflexivity|]. split; [reflexivity|]. split; [reflexivity|].
  split; [eexists; split; reflexivity|].
  eexists. eexists. split.
  - eapply (C1_optimized_branch_keeps_plain_model
              Runs.args_optimized Runs.with_corpus); reflexivity.
  - reflexivity.
Defined.

Lemma C7_witness :
  writable (env Runs.with_VST) "vst.json" = true
  /\ VST Runs.with_VST = Some [("a", [1%Z; 2%Z])]
  /\ Py.endswith "vst.json" ".gz" = false
  /\ fst (writeJSON (Some "vst.json") Runs.with_VST)
     = inl (TypeError "write() argument must be str, not bytes")
  /\ trace (snd (writeJSON (Some "vst.json") Runs.with_VST))
     = [EvOpenWrite "vst.json" TextMode (Some 3)]
  /\ In 3 (open_handles (snd (writeJSON (Some "vst.json") Runs.with_VST))).
Proof.
  split; [reflexivity|]. split; [reflexivity|]. split; [reflexivity|].
  exact (proj2 (C7_writeJSON_writes_only_gzip "vst.json" Runs.with_VST
                  [("a", [1%Z; 2%Z])] eq_refl eq_refl) eq_refl).
Defined.

(** The claim of C3 fails for the files ["a\n"] and ["b\n"]: read in turn
    they give two sentences, their concatenation gives one. *)
Lemma C3_counterexample :
  files (env Runs.disk) "a.txt" = Some (readable Runs.text_a)
  /\ files (env Runs.disk) "b.txt" = Some (readable Runs.text_b)
  /\ files (env Runs.disk) "ab.txt"
     = Some (readable (String.append Runs.text_a Runs.text_b))
  /\ corpus (snd (readCorpusFiles ["a.txt"; "b.txt"] Runs.disk))
     = [["a"]; ["b"]]
  /\ corpus (snd (readCorpusFiles ["ab.txt"] Runs.disk)) = [["a"; "b"]]
  /\ corpus (snd (readCorpusFiles ["a.txt"; "b.txt"] Runs.disk))
     <> corpus (snd (readCorpusFiles ["ab.txt"] Runs.disk)).
Proof.
  repeat (split; [reflexivity|]). vm_compute. discriminate.
Qed.

Lemma C3_witness :
  files (env Runs.disk) "a_.txt" = Some (readable Runs.text_a_blank)
  /\ files (env Runs.disk) "b.txt" = Some (readable Runs.text_b)
  /\ files (env Runs.disk) "a_b.txt"
     = Some (readable (String.append Runs.text_a_blank Runs.text_b))
  /\ corpus (snd (readCorpusFiles ["a_.txt"; "b.txt"] Runs.disk))
     = corpus (snd (readCorpusFiles ["a_b.txt"] Runs.disk)).
Proof.
  split; [reflexivity|]. split; [reflexivity|]. split; [reflexivity|].
  apply (C3_two_files_and_their_concatenation Runs.disk
           "a_.txt" "b.txt" "a_b.txt" Runs.text_a_blank Runs.text_b
           eq_refl eq_refl eq_refl).
  right. split; [exists ("a" +n+ ""); reflexivity | reflexivity].
Defined.

(** The claim of C2 fails for a run without [--method]: it returns
    normally, having trained and written nothing. *)
Lemma C2_counterexample :
  OptParse.parse_args [] = inr (Options.defaults, [])
  /\ Options.method Options.defaults = None
  /\ fst (run (G := Runs.G0) (init (Toy.env [] "the cat" []))) = inr tt
  /\ trace (snd (run (G := Runs.G0) (init (Toy.env [] "the cat" [])))) = []
  /\ VST (snd (run (G := Runs.G0) (init (Toy.env [] "the cat" [])))) = None.
Proof. repeat split. Qed.

Lemma C2_witness :
  OptParse.parse_args (argv (Toy.env ["--txt"; "v.txt"] "the cat" []))
  = inr (Options.set_txt "v.txt" Options.defaults, [])
  /\ readCorpusFiles [] (init (Toy.env ["--txt"; "v.txt"] "the cat" []))
     = (inr tt, set_corpus [["the cat"]]
                  (init (G := Runs.G0) (Toy.env ["--txt"; "v.txt"] "the cat" [])))
  /\ run (G := Runs.G0) (init (Toy.env ["--txt"; "v.txt"] "the cat" []))
     = (inl (AttributeError "VST"),
        opened "v.txt" TextMode
          (untrained
             (set_corpus [["the cat"]]
                (init (Toy.env ["--txt"; "v.txt"] "the cat" [])))))
  /\ outputs (trace (snd (run (G := Runs.G0)
                            (init (Toy.env ["--txt"; "v.txt"] "the cat" [])))))
     = ["v.txt"]
  /\ VST (snd (run (G := Runs.G0)
                 (init (Toy.env ["--txt"; "v.txt"] "the cat" [])))) = None.
Proof.
  split; [reflexivity|]. split; [reflexivity|].
  pose proof (C2_no_method_is_no_configuration_error (G := Runs.G0)
                (Toy.env ["--txt"; "v.txt"] "the cat" [])
                (Options.set_txt "v.txt" Options.defaults) []
                (set_corpus [["the cat"]]
                   (init (Toy.env ["--txt"; "v.txt"] "the cat" [])))
                eq_refl eq_refl eq_refl eq_refl) as H.
  split; [exact (proj1 (proj2 (proj2 (proj2 H))))|].
  split; [exact (proj1 (proj2 (proj2 (proj2 (proj2 H)))))|].
  exact (proj1 (proj2 (proj2 H))).
Defined.

(** The claim of C6 fails when the file raises while it is read: the
    exception leaves [readCorpusFiles] before [f.close()]. *)
Lemma C6_counterexample :
  fst (readCorpusFiles ["bad.txt"] Runs.disk) = inl (ReadError "decode")
  /\ trace (snd (readCorpusFiles ["bad.txt"] Runs.disk))
     = [EvOpenRead "bad.txt" (Some 3)]
  /\ open_handles (snd (readCorpusFiles ["bad.txt"] Runs.disk)) = [3].
Proof. repeat split. Qed.

(** Two files read to the end are closed; a gzip output whose flush
    fails at [f.close()] is closed too, and the writer raises. *)
Lemma C6_witness :
  readCorpusFiles ["a.txt"; "b.txt"] Runs.disk
  = (inr tt, snd (readCorpusFiles ["a.txt"; "b.txt"] Runs.disk))
  /\ (forall h,
        In h (open_handles (snd (readCorpusFiles ["a.txt"; "b.txt"] Runs.disk)))
        -> In h (open_handles Runs.disk))
  /\ writable (env Runs.full_device) "v.json.gz" = true
  /\ close_fails (env Runs.full_device)
       [ EvOpenWrite "v.json.gz" GzipMode (Some 3);
         EvWrite 3
           (Bytes (encode_utf8
                     (json_dumps (G := Runs.G0) [("a", [1%Z; 2%Z])]))) ]
     = true
  /\ fst (writeJSON (Some "v.json.gz") Runs.full_device)
     = inl (OSError "v.json.gz")
  /\ open_handles (snd (writeJSON (Some "v.json.gz") Runs.full_device)) = [].
Proof.
  assert (Hrun : readCorpusFiles ["a.txt"; "b.txt"] Runs.disk
                 = (inr tt, snd (readCorpusFiles ["a.txt"; "b.txt"] Runs.disk)))
    by (vm_compute; reflexivity).
  split; [exact Hrun|].
  split.
  - exact (proj1 C6_handles_closed_on_normal_return ["a.txt"; "b.txt"] Runs.disk
             (snd (readCorpusFiles ["a.txt"; "b.txt"] Runs.disk)) Hrun).
  - split; [reflexivity|]. split; [reflexivity|].
    exact (proj2 (proj2 (proj2 (proj2 (proj2 (proj2
             (C6_handles_closed_on_normal_return (G := Runs.G0)))))))
             "v.json.gz" [("a", [1%Z; 2%Z])] Runs.full_device
             eq_refl eq_refl eq_refl eq_refl eq_refl).
Defined.



(** * Further properties *)

(** ** The corpus reader *)

Lemma concat_nonempty (groups : list (list string)) :
  List.concat (nonempty groups) = List.concat groups.
Proof.
  induction groups as [|g gs IH]; [reflexivity|].
  unfold nonempty in *. simpl.
  destruct g as [|t g']; simpl; [exact IH | rewrite IH; reflexivity].
Qed.

Lemma concat_spec_groups (lines : list string) :
  List.concat (spec_groups lines) = tokens_of_lines lines.
Proof.
  unfold tokens_of_lines.
  induction lines as [|l r IH]; [reflexivity|].
  simpl. destruct (blank l); simpl.
  - exact IH.
  - destruct (spec_groups r) as [|g gs] eqn:Hg;
      [exfalso; exact (spec_groups_not_nil r Hg)|].
    simpl in *. rewrite IH. reflexivity.
Qed.

Lemma concat_spec_sentences (lines : list string) :
  List.concat (spec_sentences lines) = tokens_of_lines lines.
Proof.
  unfold spec_sentences. rewrite <- concat_spec_groups.
  apply concat_nonempty.
Qed.

Section ReaderMore.

Context {G : Gensim}.

(** X1: reading a file loses, repeats and reorders no token: the tokens of
    the corpus after [readCorpus], sentence after sentence, are the tokens it
    held before followed by the stripped non-blank lines of the file, in the
    order of the file. *)
Theorem X1_readCorpus_keeps_every_token (f : FileObj) (s : State G) :
  f_failure f = None ->
  List.concat (corpus (snd (readCorpus f s)))
  = List.concat (corpus s) ++ tokens_of_lines (f_lines f).
Proof.
  intros Hf. rewrite (readCorpus_returns f s Hf). simpl.
  rewrite readCorpus_lines_spec, concat_app, concat_spec_sentences.
  reflexivity.
Qed.

End ReaderMore.

Lemma lstrip_fixed (s : string) :
  head_space s = false -> Py.lstrip s = s.
Proof.
  destruct s as [|c r]; simpl; [reflexivity|]. intros ->. reflexivity.
Qed.

Lemma rstrip_idempotent (s : string) :
  Py.rstrip (Py.rstrip s) = Py.rstrip s.
Proof.
  induction s as [|c r IH]; [reflexivity|]. simpl.
  destruct (Py.rstrip r) as [|c' r'] eqn:Hr.
  - destruct (Py.isspace c) eqn:Hc; simpl; [reflexivity|].
    rewrite Hc. reflexivity.
  - simpl. simpl in IH. rewrite IH. reflexivity.
Qed.

Lemma strip_idempotent (s : string) : Py.strip (Py.strip s) = Py.strip s.
Proof.
  unfold Py.strip.
  rewrite (lstrip_fixed (Py.rstrip (Py.lstrip s))).
  - apply rstrip_idempotent.
  - apply rstrip_head_space, lstrip_head_space.
Qed.

Lemma readCorpus_step_strip (st : Corpus * Sentence) (l1 l2 : string) :
  Py.strip l1 = Py.strip l2 ->
  readCorpus_step st l1 = readCorpus_step st l2.
Proof. intros H. destruct st as [c cur]. unfold readCorpus_step. rewrite H. reflexivity. Qed.

Lemma readCorpus_loop_strip (l1 : list string) :
  forall (l2 : list string) (st : Corpus * Sentence),
    map Py.strip l1 = map Py.strip l2 ->
    readCorpus_loop l1 st = readCorpus_loop l2 st.
Proof.
  induction l1 as [|a r IH]; intros [|b r'] st H; try discriminate.
  - reflexivity.
  - simpl in H. injection H as Ha Hr.
    rewrite !readCorpus_loop_cons, (readCorpus_step_strip st a b Ha).
    apply IH. exact Hr.
Qed.

(** X2: the corpus depends on the lines only through their stripped
    forms: two streams whose lines agree after [strip] give the same corpus,
    and so does a stream whose lines were stripped beforehand. *)
Theorem X2_corpus_depends_on_stripped_lines
  (l1 l2 : list string) (c : Corpus) :
  map Py.strip l1 = map Py.strip l2 ->
  readCorpus_lines l1 c = readCorpus_lines l2 c
  /\ readCorpus_lines (map Py.strip l1) c = readCorpus_lines l1 c.
Proof.
  intros H. unfold readCorpus_lines. split.
  - rewrite (readCorpus_loop_strip l1 l2 (c, []) H). reflexivity.
  - rewrite (readCorpus_loop_strip (map Py.strip l1) l1 (c, [])); [reflexivity|].
    rewrite map_map. apply map_ext. intros l. apply strip_idempotent.
Qed.

(** ** Line endings *)

Lemma to_crlf_readlines (t : string) :
  no_CR t = true -> Py.readlines (to_crlf t) = Py.readlines t.
Proof.
  induction t as [|c r IH]; [reflexivity|].
  cbn [no_CR]. intros H. apply andb_prop in H. destruct H as [Hc Hr].
  apply negb_true_iff in Hc. specialize (IH Hr).
  cbn [to_crlf]. destruct (Ascii.eqb c Py.LF) eqn:Hlf.
  - cbn [Py.readlines]. rewrite Hlf.
    change (Ascii.eqb Py.CR Py.LF) with false.
    change (Ascii.eqb Py.CR Py.CR) with true.
    change (Ascii.eqb Py.LF Py.LF) with true. cbv iota.
    rewrite IH. reflexivity.
  - cbn [Py.readlines]. rewrite Hlf, Hc, IH. reflexivity.
Qed.

(** ** Several corpus files *)

Section FilesMore.

Context {G : Gensim}.

Lemma reads_done_cons (fn : string) (r : list string) (s : State G) (t : string) :
  files (env s) fn = Some (readable t) ->
  reads_done (fn :: r) s = reads_done r (read_done fn (readable t) s).
Proof. intros H. unfold reads_done. simpl. rewrite H. reflexivity. Qed.

Lemma is_readable_read_done (fn : string) (tf : TextFile) (s : State G)
  (fns : list string) :
  Forall (is_readable (env s)) fns ->
  Forall (is_readable (env (read_done fn tf s))) fns.
Proof. intros H. exact H. Qed.

Lemma reads_done_env (fns : list string) :
  forall s : State G, env (reads_done fns s) = env s.
Proof.
  induction fns as [|fn r IH]; intros s; [reflexivity|].
  change (reads_done (fn :: r) s)
    with (reads_done r
            (match files (env s) fn with
             | Some tf => read_done fn tf s
             | None => s
             end)).
  rewrite IH. destruct (files (env s) fn); reflexivity.
Qed.

Lemma reads_done_corpus (fns : list string) :
  forall s : State G,
    Forall (is_readable (env s)) fns ->
    corpus (reads_done fns s)
    = corpus s
      ++ flat_map (fun fn => spec_sentences (file_lines (env s) fn)) fns.
Proof.
  induction fns as [|fn r IH]; intros s H.
  - simpl. rewrite app_nil_r. reflexivity.
  - inversion H as [|x l [t Ht] Hr]; subst.
    rewrite (reads_done_cons fn r s t Ht).
    rewrite (IH _ (is_readable_read_done fn (readable t) s r Hr)).
    cbn [read_done corpus env flat_map text readable].
    rewrite readCorpus_lines_spec, <- app_assoc.
    unfold file_lines at 2. rewrite Ht. reflexivity.
Qed.

Lemma reads_done_trace (fns : list string) :
  forall s : State G,
    Forall (is_readable (env s)) fns ->
    trace (reads_done fns s) = trace s ++ read_events (next_handle s) fns.
Proof.
  induction fns as [|fn r IH]; intros s H.
  - simpl. rewrite app_nil_r. reflexivity.
  - inversion H as [|x l [t Ht] Hr]; subst.
    rewrite (reads_done_cons fn r s t Ht).
    rewrite (IH _ (is_readable_read_done fn (readable t) s r Hr)).
    cbn [read_done trace next_handle read_events].
    rewrite <- app_assoc. reflexivity.
Qed.

(** Readable files at the head of the list are read, then the loop goes
    on with the rest. *)
Lemma readCorpusFiles_readable_prefix (fns : list string) :
  forall (rest : list string) (s : State G),
    rest <> [] ->
    Forall (is_readable (env s)) fns ->
    readCorpusFiles (fns ++ rest) s = readCorpusFiles rest (reads_done fns s).
Proof.
  induction fns as [|fn r IH]; intros rest s Hne H; [reflexivity|].
  inversion H as [|x l [t Ht] Hr]; subst.
  rewrite (reads_done_cons fn r s t Ht).
  rewrite <- (IH rest _ Hne (is_readable_read_done fn (readable t) s r Hr)).
  simpl app.
  destruct (r ++ rest) as [|fn' r'] eqn:Hrr.
  - apply app_eq_nil in Hrr. destruct Hrr as [_ Hrest]. congruence.
  - rewrite readCorpusFiles_cons, (readCorpusFiles_one fn _ s Ht).
    reflexivity.
Qed.

Lemma readCorpusFiles_all_readable (fns : list string) (s : State G) :
  fns <> [] ->
  Forall (is_readable (env s)) fns ->
  readCorpusFiles fns s = (inr tt, reads_done fns s).
Proof.
  intros Hne H.
  destruct (exists_last Hne) as [front [fn Hfns]]. subst fns.
  apply Forall_app in H. destruct H as [Hfront Hlast].
  inversion Hlast as [|x l [t Ht] _]; subst.
  rewrite (readCorpusFiles_readable_prefix front [fn] s); [|discriminate|exact Hfront].
  assert (Ht' : files (env (reads_done front s)) fn = Some (readable t)).
  { rewrite reads_done_env. exact Ht. }
  rewrite (readCorpusFiles_one fn _ _ Ht'). cbn [failure readable].
  unfold reads_done at 2. rewrite fold_left_app. simpl.
  fold (reads_done front s). rewrite Ht'. reflexivity.
Qed.

(** X3: every file of the list being readable, [readCorpusFiles] returns
    normally; the corpus gains the sentences of each file, file after file
    in the order given; and the files are opened and closed one at a time,
    each closed before the next is opened. *)
Theorem X3_readCorpusFiles_reads_files_in_order
  (fns : list string) (s : State G) :
  fns <> [] ->
  Forall (is_readable (env s)) fns ->
  fst (readCorpusFiles fns s) = inr tt
  /\ corpus (snd (readCorpusFiles fns s))
     = corpus s
       ++ flat_map (fun fn => spec_sentences (file_lines (env s) fn)) fns
  /\ trace (snd (readCorpusFiles fns s))
     = trace s ++ read_events (next_handle s) fns.
Proof.
  intros Hne H. rewrite (readCorpusFiles_all_readable fns s Hne H).
  split; [reflexivity|]. split.
  - apply reads_done_corpus. exact H.
  - apply reads_done_trace. exact H.
Qed.

(** X4: the first file that [open] does not find ends the loop with
    [OSError]: the sentences of the files before it stay in the corpus, and
    no file after it is opened. *)
Theorem X4_readCorpusFiles_stops_at_missing_file
  (fns : list string) (fn : string) (rest : list string) (s : State G) :
  Forall (is_readable (env s)) fns ->
  files (env s) fn = None ->
  fst (readCorpusFiles (fns ++ fn :: rest) s) = inl (OSError fn)
  /\ corpus (snd (readCorpusFiles (fns ++ fn :: rest) s))
     = corpus s
       ++ flat_map (fun fn => spec_sentences (file_lines (env s) fn)) fns
  /\ trace (snd (readCorpusFiles (fns ++ fn :: rest) s))
     = trace s ++ read_events (next_handle s) fns ++ [EvOpenRead fn None].
Proof.
  intros H Hmiss.
  rewrite (readCorpusFiles_readable_prefix fns (fn :: rest) s);
    [|discriminate|exact H].
  assert (Hm : files (env (reads_done fns s)) fn = None).
  { rewrite reads_done_env. exact Hmiss. }
  assert (Hrun : readCorpusFiles (fn :: rest) (reads_done fns s)
                 = (inl (OSError fn),
                    add_event (EvOpenRead fn None) (reads_done fns s))).
  { destruct rest as [|fn' r].
    - apply readCorpusFiles_missing. exact Hm.
    - rewrite readCorpusFiles_cons, (readCorpusFiles_missing fn _ Hm).
      reflexivity. }
  rewrite Hrun. cbn [fst snd add_event corpus trace].
  split; [reflexivity|]. split.
  - apply reads_done_corpus. exact H.
  - rewrite (reads_done_trace fns s H), <- app_assoc. reflexivity.
Qed.

(** X5: a file with Windows line endings gives the same corpus as the
    same text with line feeds. *)
Theorem X5_crlf_file_same_corpus
  (fn1 fn2 : string) (t : string) (s : State G) :
  files (env s) fn1 = Some (readable t) ->
  files (env s) fn2 = Some (readable (to_crlf t)) ->
  no_CR t = true ->
  fst (readCorpusFiles [fn2] s) = fst (readCorpusFiles [fn1] s)
  /\ corpus (snd (readCorpusFiles [fn2] s))
     = corpus (snd (readCorpusFiles [fn1] s)).
Proof.
  intros H1 H2 Hcr.
  rewrite (readCorpusFiles_one fn1 _ s H1), (readCorpusFiles_one fn2 _ s H2).
  cbn [failure readable fst snd read_done corpus text].
  rewrite (to_crlf_readlines t Hcr). split; reflexivity.
Qed.

(** X6: without file names the corpus is read from standard input: no
    file is opened or closed, and the object changes only by the sentences
    of standard input. The lines of standard input end at line feeds only:
    a carriage return inside a line stays in the token. *)
Theorem X6_readCorpusFiles_reads_stdin (s : State G) :
  failure (stdin (env s)) = None ->
  readCorpusFiles [] s
  = (inr tt,
     set_corpus
       (corpus s ++ spec_sentences (Py.readlines_lf (text (stdin (env s)))))
       s).
Proof.
  intros Hf. unfold readCorpusFiles, sys_stdin.
  cbn [List.length Nat.eqb]. unfold bind at 1, get. unfold bind at 1, ret.
  rewrite readCorpus_returns by exact Hf.
  cbn [f_lines]. rewrite readCorpus_lines_spec. reflexivity.
Qed.

End FilesMore.

(** ** The command line *)

Lemma _process_args_positional (arg : string) (rest largs : list string)
  (values : Options.t) :
  is_option arg = false ->
  OptParse._process_args (arg :: rest) largs values
  = OptParse._process_args rest (largs ++ [arg]) values.
Proof.
  intros H. cbn [OptParse._process_args].
  assert (Hcases : arg = EmptyString \/ arg = "-"
                   \/ exists c r, arg = String c r /\ c <> "-"%char).
  { destruct arg as [|c r]; [left; reflexivity|]. right.
    destruct (ascii_dec "-" c) as [<-|Hc].
    - left. unfold is_option in H. cbn [String.prefix] in H.
      destruct (ascii_dec "-" "-") as [_|Hn]; [|congruence].
      destruct r as [|c' r']; [reflexivity|].
      destruct r'; discriminate H.
    - right. exists c, r. split; [reflexivity | congruence]. }
  assert (H1 : String.eqb arg "--" = false).
  { destruct Hcases as [->|[->|[c [r [-> Hc]]]]]; try reflexivity.
    cbn [String.eqb]. destruct (Ascii.eqb_spec c "-") as [->|_];
      [congruence | reflexivity]. }
  assert (H2 : String.prefix "--" arg = false).
  { destruct Hcases as [->|[->|[c [r [-> Hc]]]]]; try reflexivity.
    cbn [String.prefix]. destruct (ascii_dec "-" c) as [<-|_];
      [congruence | reflexivity]. }
  unfold is_option in H. rewrite H1, H2, H. reflexivity.
Qed.

(** X7: a command line without options is a list of corpus files: when no
    argument is an option (none begins with a dash, but a lone ["-"] may
    occur), [parse_args] returns the default values and all the arguments,
    in order. *)
Theorem X7_parse_args_without_options (argv : list string) :
  Forall (fun arg => is_option arg = false) argv ->
  OptParse.parse_args argv = inr (Options.defaults, argv).
Proof.
  intros H. unfold OptParse.parse_args.
  enough (Hgen : forall largs,
             OptParse._process_args argv largs Options.defaults
             = inr (Options.defaults, largs ++ argv)) by apply (Hgen []).
  induction H as [|arg rest Harg _ IH]; intros largs.
  - simpl. rewrite app_nil_r. reflexivity.
  - rewrite _process_args_positional by exact Harg.
    rewrite IH, <- app_assoc. reflexivity.
Qed.

(** X8: for every option that takes a value, the attached form
    [--name=value] is read exactly as the two arguments [--name value],
    whatever the value, the rest of the command line and the values parsed
    so far. *)
Theorem X8_attached_value_is_next_argument
  (name : string) (a : OptParse.action) (v : string)
  (rest largs : list string) (values : Options.t) :
  In (name, a) OptParse.option_list ->
  takes_value a = true ->
  OptParse._process_args (String.append name (String "=" v) :: rest)
    largs values
  = OptParse._process_args (name :: v :: rest) largs values.
Proof.
  intros Hin Ht. unfold OptParse.option_list in Hin. simpl in Hin.
  repeat (destruct Hin as [Hin|Hin];
          [injection Hin as <- <-; try discriminate Ht; reflexivity|]).
  destruct Hin.
Qed.

Lemma X8_witness :
  In ("--method", OptParse.store_string Options.set_method)
     OptParse.option_list
  /\ takes_value (OptParse.store_string Options.set_method) = true
  /\ OptParse.parse_args ["--method=word2vec"; "a.txt"]
     = OptParse.parse_args ["--method"; "word2vec"; "a.txt"].
Proof.
  assert (Hin : In ("--method", OptParse.store_string Options.set_method)
                  OptParse.option_list).
  { unfold OptParse.option_list. simpl. tauto. }
  split; [exact Hin|]. split; [reflexivity|].
  exact (X8_attached_value_is_next_argument "--method"
           (OptParse.store_string Options.set_method) "word2vec" ["a.txt"] []
           Options.defaults Hin eq_refl).
Defined.

(** ** More on [buildVector] *)

Section DispatcherMore.

Context {G : Gensim}.

Lemma buildVector_keeps {X} (proj : State G -> X) (a : Args.t float) :
  (forall m s, proj (set_vst_model m s) = proj s) ->
  (forall v s, proj (set_VST v s) = proj s) ->
  (forall msg s, proj (add_stderr msg s) = proj s) ->
  (forall paths s, proj (add_event (EvExternal paths) s) = proj s) ->
  keeps proj (buildVector a).
Proof.
  intros Hm Hv He Hx.
  unfold buildVector, call_FastText_OPT_train, print_stderr, self_vst_model.
  repeat first
    [ apply assign_VST_keeps; exact Hv
    | apply keeps_when
    | apply keeps_bind; [|intros ?]
    | apply keeps_get | apply keeps_lift | apply keeps_raise | apply keeps_ret
    | apply keeps_modify; intros ?; first [apply Hm | apply He | apply Hx]
    | match goal with
      | |- keeps _ (match ?x with _ => _ end) => destruct x
      end ].
Qed.

(** X9: the code of [buildVector] itself does nothing to the file system,
    whatever the method and whatever the libraries answer: it leaves the
    corpus and the file objects as they are, opens, writes and closes no
    file and saves no model. The only file activity during the call is that
    of the external tool, at most once, and only for a method that contains
    "fasttext" and "optimized". *)
Theorem X9_buildVector_touches_no_file (a : Args.t float) (s : State G) :
  corpus (snd (buildVector a s)) = corpus s
  /\ next_handle (snd (buildVector a s)) = next_handle s
  /\ open_handles (snd (buildVector a s)) = open_handles s
  /\ outputs (trace (snd (buildVector a s))) = outputs (trace s)
  /\ (trace (snd (buildVector a s)) = trace s
      \/ trace (snd (buildVector a s))
         = trace s
           ++ [EvExternal (FastText_OPT_files (optimized_args a (corpus s)))])
  /\ (method_has (Args.method a) "fasttext"
      && method_has (Args.method a) "optimized" = false ->
      trace (snd (buildVector a s)) = trace s).
Proof.
  split; [apply (buildVector_keeps (@corpus G)); reflexivity|].
  split; [apply (buildVector_keeps (@next_handle G)); reflexivity|].
  split; [apply (buildVector_keeps (@open_handles G)); reflexivity|].
  split; [apply buildVector_keeps_outputs|].
  pose (pr := fun s : State G => (corpus s, trace s)).
  destruct (buildVector a s) as [r s'] eqn:E. cbn [snd].
  unfold buildVector in E. unfold bind at 1 in E.
  cbn [print_stderr modify] in E.
  set (s0 := add_stderr "Building the embeddings vectors..." s) in E.
  assert (H0 : pr s0 = pr s) by reflexivity.
  clearbody s0.
  unfold bind at 1 in E.
  match type of E with
  | context [when ?b ?X s0] =>
      assert (H1 : keeps pr (when b X))
        by (unfold print_stderr, assign_VST, self_vst_model; frame);
      specialize (H1 s0); destruct (when b X s0) as [[e1|[]] s1]
  end; cbn [snd] in H1; rewrite H0 in H1.
  { injection E as _ <-. injection H1 as _ Ht.
    split; [left; exact Ht | intros _; exact Ht]. }
  unfold bind at 1 in E.
  match type of E with
  | context [when ?b ?X s1] =>
      assert (H2 : keeps pr (when b X))
        by (unfold print_stderr, assign_VST, self_vst_model; frame);
      specialize (H2 s1); destruct (when b X s1) as [[e2|[]] s2]
  end; cbn [snd] in H2; rewrite H1 in H2.
  { injection E as _ <-. injection H2 as _ Ht.
    split; [left; exact Ht | intros _; exact Ht]. }
  injection H2 as Hc Ht.
  destruct (method_has (Args.method a) "fasttext"
            && method_has (Args.method a) "optimized").
  - cbn [when] in E. unfold bind at 1 in E. cbn [print_stderr modify] in E.
    unfold bind at 1 in E. cbn [get] in E.
    unfold bind at 1, call_FastText_OPT_train in E.
    unfold bind at 1 in E. cbn [modify] in E. cbn [corpus add_stderr] in E.
    rewrite Hc in E.
    split; [right | intros Hf; discriminate Hf].
    destruct (FastText_OPT_train (optimized_args a (corpus s))) as [e3|o].
    + cbn [lift raise] in E. injection E as _ <-.
      cbn [trace add_event add_stderr]. rewrite Ht. reflexivity.
    + cbn [lift ret] in E. unfold bind at 1 in E.
      cbn [print_stderr modify] in E.
      match type of E with
      | assign_VST ?st = _ =>
          pose proof (assign_VST_keeps (@trace G) (fun _ _ => eq_refl) st) as H3
      end.
      rewrite E in H3. cbn [snd] in H3. rewrite H3.
      cbn [trace add_event add_stderr]. rewrite Ht. reflexivity.
  - cbn [when ret] in E. injection E as _ <-.
    split; [left; exact Ht | intros _; exact Ht].
Qed.

Lemma method_has_lower (m m' : option string) (sub : string) :
  option_map Py.lower m = option_map Py.lower m' ->
  method_has m sub = method_has m' sub.
Proof.
  destruct m as [x|], m' as [y|]; simpl; intros H; try discriminate;
    [injection H as ->|]; reflexivity.
Qed.

(** X10: the choice of the method does not depend on the case of its
    letters: two calls of [buildVector] that differ only by method names
    with the same lower-case form do the same. *)
Theorem X10_method_is_case_insensitive
  (workerNum minCount vectSize : Z) (skipGram : bool) (windowSize : Z)
  (learningRate : float) (numIteration negativeSampling : Z)
  (subSampling : float) (seed : Z) (m m' : option string)
  (minNgram maxNgram bucket : Z) (fastTextHome : option Z) (s : State G) :
  option_map Py.lower m = option_map Py.lower m' ->
  buildVector
    (Args.mk workerNum minCount vectSize skipGram windowSize learningRate
       numIteration negativeSampling subSampling seed m minNgram maxNgram
       bucket fastTextHome) s
  = buildVector
      (Args.mk workerNum minCount vectSize skipGram windowSize learningRate
         numIteration negativeSampling subSampling seed m' minNgram maxNgram
         bucket fastTextHome) s.
Proof.
  intros H. unfold buildVector. cbn [Args.method].
  rewrite !(method_has_lower m m' _ H). reflexivity.
Qed.

End DispatcherMore.

(** ** More on [run] *)

Section RunMore.

Context {G : Gensim}.

Lemma pipeline_read_build
  (o : Options.t) (args : list string) (s s1 : State G)
  (r : pyerr + unit) (s2 : State G) :
  readCorpusFiles args s = (inr tt, s1) ->
  buildVector (build_args o) s1 = (r, s2) ->
  pipeline o args s
  = match r with
    | inl err => (inl err, s2)
    | inr _ =>
        (writeJSON (Options.json o) ;;
         writeTxt (Options.txt o) ;;
         writeBin (Options.bin o)) s2
    end.
Proof.
  intros Hr Hb. unfold pipeline. unfold bind at 1. rewrite Hr.
  unfold bind at 1. rewrite Hb. destruct r; reflexivity.
Qed.

Lemma read_build_outputs
  (o : Options.t) (args : list string) (s s1 : State G)
  (r : pyerr + unit) (s2 : State G) :
  readCorpusFiles args s = (inr tt, s1) ->
  buildVector (build_args o) s1 = (r, s2) ->
  outputs (trace s2) = outputs (trace s).
Proof.
  intros Hr Hb.
  pose proof (readCorpusFiles_keeps_outputs args s) as H1.
  pose proof (buildVector_keeps_outputs (build_args o) s1) as H2.
  rewrite Hr in H1. rewrite Hb in H2. simpl in H1, H2.
  rewrite H2. exact H1.
Qed.

(** X11: when training raises, [run] ends with the same exception and no
    output is attempted: no output file is opened and no model is saved. *)
Theorem X11_training_error_ends_run_without_output
  (e : Env) (o : Options.t) (args : list string) (s1 s2 : State G)
  (err : pyerr) :
  OptParse.parse_args (argv e) = inr (o, args) ->
  readCorpusFiles args (init e) = (inr tt, s1) ->
  buildVector (build_args o) s1 = (inl err, s2) ->
  run (init e) = (inl err, s2) /\ outputs (trace s2) = [].
Proof.
  intros Hp Hr Hb. split.
  - rewrite (run_parsed (init e) o args Hp).
    exact (pipeline_read_build o args (init e) s1 (inl err) s2 Hr Hb).
  - exact (read_build_outputs o args (init e) s1 (inl err) s2 Hr Hb).
Qed.

(** X12: after a training that succeeded, a [--json] path that does not
    end in ".gz" ends the run with [TypeError] at the JSON writer: the JSON
    file was opened and is the only output attempted, so the [--txt] and
    [--bin] outputs of the same run are not produced, and the file stays
    open. *)
Theorem X12_plain_json_path_blocks_the_other_writers
  (e : Env) (o : Options.t) (args : list string) (s1 s2 : State G)
  (p : string) (v : Vst float) :
  OptParse.parse_args (argv e) = inr (o, args) ->
  readCorpusFiles args (init e) = (inr tt, s1) ->
  buildVector (build_args o) s1 = (inr tt, s2) ->
  VST s2 = Some v ->
  Options.json o = Some p ->
  Py.endswith p ".gz" = false ->
  writable (env s2) p = true ->
  fst (run (init e))
  = inl (TypeError "write() argument must be str, not bytes")
  /\ outputs (trace (snd (run (init e)))) = [p]
  /\ In (next_handle s2) (open_handles (snd (run (init e)))).
Proof.
  intros Hp Hr Hb Hv Hj Hgz Hw.
  assert (Hrun : run (init e)
                 = (inl (TypeError "write() argument must be str, not bytes"),
                    opened p TextMode s2)).
  { rewrite (run_parsed (init e) o args Hp).
    rewrite (pipeline_read_build o args (init e) s1 (inr tt) s2 Hr Hb).
    unfold bind at 1. rewrite Hj, (writeJSON_set p s2 v Hw Hv), Hgz.
    reflexivity. }
  rewrite Hrun. cbn [fst snd]. split; [reflexivity|]. split.
  - unfold opened. rewrite outputs_add_event. cbn [alloc_handle trace].
    rewrite (read_build_outputs o args (init e) s1 (inr tt) s2 Hr Hb).
    reflexivity.
  - left. reflexivity.
Qed.

(** *** No file left open *)

Lemma no_leak_keeps {A} (c : M G A) :
  keeps (@open_handles G) c -> no_leak c.
Proof.
  intros Hk s a s' Hrun h Hin. specialize (Hk s). rewrite Hrun in Hk.
  simpl in Hk. rewrite <- Hk. exact Hin.
Qed.

Lemma no_leak_bind {A B} (c : M G A) (k : A -> M G B) :
  no_leak c -> (forall a, no_leak (k a)) -> no_leak (bind c k).
Proof.
  intros Hc Hk s b s' Hrun h Hin. unfold bind in Hrun.
  destruct (c s) as [[e|a] s1] eqn:Hcs; [discriminate|].
  apply (Hc s a s1 Hcs). apply (Hk a s1 b s' Hrun). exact Hin.
Qed.

Lemma readCorpusFiles_no_leak (fns : list string) :
  no_leak (readCorpusFiles (G := G) fns).
Proof.
  intros s [] s' Hrun h Hin. destruct fns as [|fn r].
  - rewrite <- (readCorpusFiles_stdin_keeps_handles s), Hrun. exact Hin.
  - exact (readCorpusFiles_closes r fn s s' Hrun h Hin).
Qed.

Lemma open_use_close_no_leak
  (fn : string) (m : mode) (body : FileObj -> M G unit) :
  (forall f, keeps (@open_handles G) (body f)) ->
  no_leak (open_use_close fn m body).
Proof.
  intros Hbody s [] s' Hrun h Hin.
  rewrite (open_use_close_handles fn m body s s' Hbody Hrun) in Hin.
  exact (in_remove_cons _ _ _ Hin).
Qed.

Lemma writeJSON_no_leak (o : option string) : no_leak (writeJSON (G := G) o).
Proof.
  destruct o as [fn|].
  - intros s a s' Hrun. rewrite writeJSON_shape in Hrun. revert Hrun.
    apply open_use_close_no_leak. intros f.
    apply json_body_keeps. reflexivity.
  - intros s a s' Hrun h Hin. injection Hrun as _ <-. exact Hin.
Qed.

Lemma writeTxt_no_leak (o : option string) : no_leak (writeTxt (G := G) o).
Proof.
  destruct o as [fn|].
  - intros s a s' Hrun. rewrite writeTxt_shape in Hrun. revert Hrun.
    apply open_use_close_no_leak. intros f.
    apply txt_body_keeps. reflexivity.
  - intros s a s' Hrun h Hin. injection Hrun as _ <-. exact Hin.
Qed.

Lemma writeBin_keeps_handles (o : option string) :
  keeps (@open_handles G) (writeBin o).
Proof.
  unfold writeBin, self_vst_model. destruct o; frame.
Qed.

Lemma pipeline_no_leak (o : Options.t) (args : list string) :
  no_leak (pipeline (G := G) o args).
Proof.
  unfold pipeline.
  apply no_leak_bind; [apply readCorpusFiles_no_leak | intros _].
  apply no_leak_bind;
    [apply no_leak_keeps, (buildVector_keeps (@open_handles G));
     reflexivity | intros _].
  apply no_leak_bind; [apply writeJSON_no_leak | intros _].
  apply no_leak_bind; [apply writeTxt_no_leak | intros _].
  apply no_leak_keeps, writeBin_keeps_handles.
Qed.

(** X13: a run that returns normally has closed every file it opened: in
    a new process no file object is left open at the end. *)
Theorem X13_normal_run_leaves_no_file_open (e : Env) (s' : State G) :
  run (init e) = (inr tt, s') -> open_handles s' = [].
Proof.
  intros Hrun.
  destruct (OptParse.parse_args (argv e)) as [err|[o args]] eqn:Hp.
  - rewrite (run_not_parsed (init e) err Hp) in Hrun. discriminate.
  - rewrite (run_parsed (init e) o args Hp) in Hrun.
    destruct (open_handles s') as [|h l] eqn:Hh; [reflexivity|].
    exfalso.
    apply (pipeline_no_leak o args (init e) tt s' Hrun h).
    rewrite Hh. left. reflexivity.
Qed.

End RunMore.

(** ** The text writer *)

Section TxtWriter.

Context {G : Gensim}.

Lemma add_events_nil (s : State G) : add_events [] s = s.
Proof. destruct s. unfold add_events. simpl. rewrite app_nil_r. reflexivity. Qed.

Lemma add_events_app (a b : list event) (s : State G) :
  add_events b (add_events a s) = add_events (a ++ b) s.
Proof. unfold add_events. simpl. rewrite app_assoc. reflexivity. Qed.

Lemma write_str (f : FileObj) (d : string) (s : State G) :
  f_mode f = TextMode ->
  write_fails (env s) (trace s) = false ->
  write f (Str d) s = (inr tt, add_events [EvWrite (handle f) (Str d)] s).
Proof.
  intros Hm Hw. unfold write, bind, get, modify. rewrite Hm, Hw. reflexivity.
Qed.

(** The loop of [writeTxt] when no write fails. *)
Lemma writeTxt_loop (f : FileObj) (vst : Vst float) :
  f_mode f = TextMode ->
  forall s : State G,
    (forall tr, write_fails (env s) tr = false) ->
    for_each vst (fun kv =>
      write f (Str (fst kv)) ;;
      write f (Str (String Py.TAB "")) ;;
      write f (Str (str_list (snd kv))) ;;
      write f (Str (String Py.LF ""))) s
    = (inr tt, add_events (txt_events (handle f) vst) s).
Proof.
  intros Hm. induction vst as [|kv r IH]; intros s Hw.
  - simpl. rewrite add_events_nil. reflexivity.
  - cbn [for_each]. unfold bind.
    rewrite write_str; [|exact Hm|exact (Hw _)]. cbv beta iota.
    rewrite write_str; [|exact Hm|exact (Hw _)]. cbv beta iota.
    rewrite write_str; [|exact Hm|exact (Hw _)]. cbv beta iota.
    rewrite write_str; [|exact Hm|exact (Hw _)]. cbv beta iota.
    rewrite IH by exact Hw.
    rewrite !add_events_app. reflexivity.
Qed.

Lemma written_text_txt_events (h : nat) (vst : Vst float) :
  written_text h (txt_events h vst)
  = fold_right String.append EmptyString (map (txt_line numpy_repr) vst).
Proof.
  induction vst as [|kv r IH]; [reflexivity|].
  cbn [txt_events flat_map app written_text map fold_right].
  rewrite Nat.eqb_refl. fold (txt_events h r). rewrite IH.
  generalize (fold_right String.append EmptyString
                (map (txt_line numpy_repr) r)).
  intros T. unfold txt_line, str_list. cbn [String.append].
  rewrite !append_assoc. cbn [String.append].
  rewrite !append_assoc. cbn [String.append]. reflexivity.
Qed.

(** X14: with the vector space set, the output file opened and no write
    failing, [writeTxt] writes and closes the file, and returns normally
    unless the flush of [f.close()] fails; between opening and closing the
    file it only writes to it, and the text written is, entry after entry
    in the order of the vector space, the token, a tab, the vector as
    [str] prints a list, and a line feed. *)
Theorem X14_writeTxt_writes_one_line_per_entry
  (fn : string) (s : State G) (vst : Vst float) :
  writable (env s) fn = true ->
  VST s = Some vst ->
  (forall tr, write_fails (env s) tr = false) ->
  fst (writeTxt (Some fn) s)
  = (if close_fails (env s)
          (trace s
           ++ EvOpenWrite fn TextMode (Some (next_handle s))
              :: txt_events (next_handle s) vst)
     then inl (OSError fn) else inr tt)
  /\ trace (snd (writeTxt (Some fn) s))
     = trace s
       ++ EvOpenWrite fn TextMode (Some (next_handle s))
          :: txt_events (next_handle s) vst ++ [EvClose (next_handle s)]
  /\ written_text (next_handle s) (txt_events (next_handle s) vst)
     = fold_right String.append EmptyString (map (txt_line numpy_repr) vst).
Proof.
  intros Hw Hv Hio.
  assert (Hrun : writeTxt (Some fn) s
                 = (if close_fails (env s)
                         (trace s
                          ++ EvOpenWrite fn TextMode (Some (next_handle s))
                             :: txt_events (next_handle s) vst)
                    then inl (OSError fn) else inr tt,
                    add_event (EvClose (next_handle s))
                      (release_handle (next_handle s)
                         (add_events (txt_events (next_handle s) vst)
                            (opened fn TextMode s))))).
  { unfold writeTxt, open_write. unfold bind at 1. unfold bind at 1, get.
    rewrite Hw. unfold bind at 1, modify, ret.
    unfold bind at 1, self_VST. unfold bind at 1, get.
    cbn [VST add_event alloc_handle]. rewrite Hv. unfold ret at 1.
    unfold bind at 1.
    rewrite writeTxt_loop; [|reflexivity|exact Hio].
    unfold close, bind, get, modify. cbn [f_output f_name handle andb].
    cbn [env trace add_events add_event alloc_handle opened].
    rewrite <- app_assoc. cbn [app].
    destruct (close_fails (env s) _); reflexivity. }
  rewrite Hrun. cbn [fst snd]. split; [reflexivity|]. split.
  - cbn [add_event release_handle add_events opened alloc_handle trace].
    rewrite <- !app_assoc. reflexivity.
  - apply written_text_txt_events.
Qed.

End TxtWriter.

(** ** The vector space of terms *)

Lemma dict_set_keys {V} (d : list (string * V)) (k : string) (v : V) :
  map fst (dict_set d k v)
  = if in_dec string_dec k (map fst d) then map fst d else map fst d ++ [k].
Proof.
  induction d as [|[k' v'] r IH]; [reflexivity|].
  cbn [dict_set map fst].
  destruct (String.eqb_spec k' k) as [->|Hne].
  - destruct (in_dec string_dec k (k :: map fst r)) as [_|Hn];
      [reflexivity | exfalso; apply Hn; left; reflexivity].
  - cbn [map fst]. rewrite IH.
    destruct (in_dec string_dec k (map fst r)) as [Hin|Hnin];
      destruct (in_dec string_dec k (k' :: map fst r)) as [Hin'|Hnin'];
      try reflexivity.
    + exfalso. apply Hnin'. right. exact Hin.
    + exfalso. destruct Hin' as [Heq|Hin']; [congruence | exact (Hnin Hin')].
Qed.

Lemma dict_set_In {V} (d : list (string * V)) (k : string) (v : V)
  (x : string) (y : V) :
  In (x, y) (dict_set d k v) -> In (x, y) d \/ (x, y) = (k, v).
Proof.
  induction d as [|[k' v'] r IH]; simpl.
  - intros [H|[]]. right. symmetry. exact H.
  - destruct (String.eqb_spec k' k) as [->|Hne]; simpl.
    + intros [H|H]; [right; symmetry; exact H | left; right; exact H].
    + intros [H|H]; [left; left; exact H|].
      destruct (IH H) as [H'|H']; [left; right; exact H' | right; exact H'].
Qed.

Lemma NoDup_snoc {A} (l : list A) (a : A) :
  NoDup l -> ~ In a l -> NoDup (l ++ [a]).
Proof.
  intros Hl Ha. induction Hl as [|x l Hx Hl IH]; simpl.
  - constructor; [intros [] | constructor].
  - constructor.
    + intros Hin. apply in_app_or in Hin. destruct Hin as [Hin|[Heq|[]]].
      * exact (Hx Hin).
      * apply Ha. left. symmetry. exact Heq.
    + apply IH. intros Hin. apply Ha. right. exact Hin.
Qed.

Lemma dict_fold_keys {V} (pairs : list (string * V)) :
  forall d : list (string * V),
    NoDup (map fst d) ->
    let d' := fold_left (fun d kv => dict_set d (fst kv) (snd kv)) pairs d in
    NoDup (map fst d')
    /\ (forall k, In k (map fst d') <-> In k (map fst d) \/ In k (map fst pairs))
    /\ (forall x y, In (x, y) d' -> In (x, y) d \/ In (x, y) pairs)
    /\ (NoDup (map fst d ++ map fst pairs) -> d' = d ++ pairs).
Proof.
  induction pairs as [|[k v] r IH]; intros d Hd; cbn zeta.
  - simpl. split; [exact Hd|]. split; [intros k; tauto|].
    split; [intros x y H; left; exact H|]. intros _. rewrite app_nil_r.
    reflexivity.
  - cbn [fold_left fst snd].
    assert (Hd1 : NoDup (map fst (dict_set d k v))).
    { rewrite dict_set_keys. destruct (in_dec string_dec k (map fst d));
        [exact Hd | apply NoDup_snoc; assumption]. }
    destruct (IH (dict_set d k v) Hd1) as [H1 [H2 [H3 H4]]].
    split; [exact H1|]. split; [|split].
    + intros x. rewrite H2, dict_set_keys. cbn [map fst].
      destruct (in_dec string_dec k (map fst d)) as [Hin|Hnin].
      * split; [intros [H|H]; [left; exact H | right; right; exact H]|].
        intros [H|[H|H]]; [left; exact H | subst; left; exact Hin
                          | right; exact H].
      * rewrite in_app_iff. simpl. tauto.
    + intros x y H. destruct (H3 x y H) as [H'|H'].
      * destruct (dict_set_In d k v x y H') as [H''|H''];
          [left; exact H'' | right; left; symmetry; exact H''].
      * right. right. exact H'.
    + intros Hnd. cbn [map fst] in Hnd.
      assert (Hk : ~ In k (map fst d)).
      { intros Hin. apply NoDup_remove_2 in Hnd. apply Hnd.
        apply in_or_app. left. exact Hin. }
      assert (Hset : dict_set d k v = d ++ [(k, v)]).
      { clear -Hk. induction d as [|[k' v'] d' IHd]; [reflexivity|].
        cbn [dict_set]. destruct (String.eqb_spec k' k) as [->|Hne].
        - exfalso. apply Hk. left. reflexivity.
        - simpl. rewrite IHd; [reflexivity|].
          intros Hin. apply Hk. right. exact Hin. }
      rewrite H4.
      * rewrite Hset, <- app_assoc. reflexivity.
      * rewrite Hset, map_app. cbn [map fst]. rewrite <- app_assoc. exact Hnd.
Qed.

Section VectorSpace.

Context {G : Gensim}.

Lemma lookup_all_ok (m : Model) (keys : list string) :
  forall pairs,
    lookup_all m keys = inr pairs ->
    map fst pairs = keys
    /\ (forall k vec, In (k, vec) pairs ->
          exists raw, wv_getitem m k = inr raw /\ vec = map numpy_float_ raw).
Proof.
  induction keys as [|k r IH]; intros pairs H; simpl in H.
  - injection H as <-. split; [reflexivity | intros k vec []].
  - destruct (wv_getitem m k) as [e|raw] eqn:Hk; [discriminate|].
    destruct (lookup_all m r) as [e|pairs'] eqn:Hr; [discriminate|].
    injection H as <-. destruct (IH pairs' eq_refl) as [H1 H2].
    split; [simpl; rewrite H1; reflexivity|].
    intros k0 vec [Heq|Hin].
    + injection Heq as <- <-. exists raw. split; [exact Hk | reflexivity].
    + exact (H2 k0 vec Hin).
Qed.

Lemma lookup_all_raises (m : Model) (keys : list string) (e : pyerr) :
  lookup_all m keys = inl e ->
  exists k, In k keys /\ wv_getitem m k = inl e.
Proof.
  induction keys as [|k r IH]; simpl; [discriminate|].
  destruct (wv_getitem m k) as [e'|raw] eqn:Hk.
  - intros H. injection H as <-. exists k. split; [left; reflexivity | exact Hk].
  - destruct (lookup_all m r) as [e'|pairs']; [|discriminate].
    intros H. injection H as <-. destruct (IH eq_refl) as [k0 [Hin Hk0]].
    exists k0. split; [right; exact Hin | exact Hk0].
Qed.

(** X15: the vector space [buildVector] computes from a model has the
    tokens of the model's vocabulary as its keys, each once (in the order of
    the vocabulary when that holds no token twice), and gives every token
    the model's vector for it, converted by [numpy.float_]; when the model
    raises for a token, the computation raises that exception. *)
Theorem X15_vector_space_of_a_model (m : Model) :
  (forall v, vocabulary_dict m = inr v ->
     NoDup (map fst v)
     /\ (forall k, In k (map fst v) <-> In k (wv_vocab_keys m))
     /\ (forall k vec, In (k, vec) v ->
           exists raw, wv_getitem m k = inr raw /\ vec = map numpy_float_ raw)
     /\ (NoDup (wv_vocab_keys m) -> map fst v = wv_vocab_keys m))
  /\ (forall e, vocabulary_dict m = inl e ->
        exists k, In k (wv_vocab_keys m) /\ wv_getitem m k = inl e).
Proof.
  unfold vocabulary_dict. split.
  - intros v H.
    destruct (lookup_all m (wv_vocab_keys m)) as [e|pairs] eqn:Hl;
      [discriminate|].
    injection H as <-. destruct (lookup_all_ok m _ pairs Hl) as [Hk Hv].
    pose proof (dict_fold_keys pairs [] (NoDup_nil _)) as Hd.
    cbn zeta in Hd. fold (dict pairs) in Hd.
    destruct Hd as [H1 [H2 [H3 H4]]].
    split; [exact H1|]. split; [|split].
    + intros k. rewrite H2, Hk. simpl. tauto.
    + intros k vec Hin. destruct (H3 k vec Hin) as [[]|Hin'].
      exact (Hv k vec Hin').
    + intros Hnd. rewrite H4; [exact Hk|]. simpl. rewrite Hk. exact Hnd.
  - intros e H.
    destruct (lookup_all m (wv_vocab_keys m)) as [e'|pairs] eqn:Hl;
      [|discriminate].
    injection H as <-. exact (lookup_all_raises m _ e' Hl).
Qed.

(** X16: the three writers only read the object: whether they return or
    raise, the corpus, the model, the vector space and what was printed
    are as before. *)
Theorem X16_writers_do_not_change_the_object
  (o : option string) (s : State G) :
  let kept (s : State G) := (corpus s, vst_model s, VST s, stderr s) in
  kept (snd (writeJSON o s)) = kept s
  /\ kept (snd (writeTxt o s)) = kept s
  /\ kept (snd (writeBin o s)) = kept s.
Proof.
  cbv zeta.
  assert (HJ : keeps (fun s : State G => (corpus s, vst_model s, VST s, stderr s))
                 (writeJSON o)).
  { unfold writeJSON, open_write, self_VST, write, close. destruct o; frame. }
  assert (HT : keeps (fun s : State G => (corpus s, vst_model s, VST s, stderr s))
                 (writeTxt o)).
  { unfold writeTxt, open_write, self_VST, write, close. destruct o; frame. }
  assert (HB : keeps (fun s : State G => (corpus s, vst_model s, VST s, stderr s))
                 (writeBin o)).
  { unfold writeBin, self_vst_model. destruct o; frame. }
  split; [apply HJ|]. split; [apply HT | apply HB].
Qed.

End VectorSpace.

(** ** Integer options *)

Lemma decimal_digit_facts (c : ascii) :
  is_decimal_digit c = true ->
  Ascii.eqb c "_" = false
  /\ Py.digit_value c = Some (Z.of_nat (nat_of_ascii c - 48))
  /\ (Z.of_nat (nat_of_ascii c - 48) <? 10)%Z = true.
Proof.
  destruct c as [[] [] [] [] [] [] [] []]; intros H;
    try discriminate H; repeat split.
Qed.

Lemma scan_digits_decimal (r : string) :
  forall acc : Z,
    forallb is_decimal_digit (list_ascii_of_string r) = true ->
    Py.scan_digits 10 acc false r = Some (decimal_value acc r, EmptyString).
Proof.
  induction r as [|c r IH]; intros acc H; [reflexivity|].
  cbn [list_ascii_of_string forallb] in H.
  apply andb_prop in H. destruct H as [Hc Hr].
  destruct (decimal_digit_facts c Hc) as [H1 [H2 H3]].
  cbn [Py.scan_digits decimal_value]. rewrite H1, H2, H3.
  apply IH. exact Hr.
Qed.

Lemma count_digits_decimal (r : string) :
  forallb is_decimal_digit (list_ascii_of_string r) = true ->
  Py.count_digits 10 r = String.length r.
Proof.
  induction r as [|c r IH]; intros H; [reflexivity|].
  cbn [list_ascii_of_string forallb] in H.
  apply andb_prop in H. destruct H as [Hc Hr].
  destruct (decimal_digit_facts c Hc) as [H1 [H2 H3]].
  cbn [Py.count_digits String.length]. unfold Py.is_digit.
  rewrite H1, H2, H3. f_equal. apply IH. exact Hr.
Qed.

(** A decimal numeral goes through [int(val, 10)]: its value when it has
    at most [int_max_str_digits] digits, [ValueError] when it has more. *)
Lemma _parse_int_decimal (ds : string) :
  is_decimal ds = true ->
  OptParse._parse_int ds
  = if Py.int_max_str_digits <? String.length ds then None
    else Some (decimal_value 0 ds).
Proof.
  destruct ds as [|c r]; [discriminate|].
  unfold is_decimal. intros H.
  apply andb_prop in H. destruct H as [H Hr].
  apply andb_prop in H. destruct H as [Hc H0].
  assert (Hall : forallb is_decimal_digit (list_ascii_of_string (String c r))
                 = true).
  { cbn [list_ascii_of_string forallb]. rewrite Hc, Hr. reflexivity. }
  assert (Hscan : Py.scan_digits 10 0 false (String c r)
                  = Some (decimal_value 0 (String c r), EmptyString)).
  { apply scan_digits_decimal. exact Hall. }
  rewrite <- (count_digits_decimal (String c r) Hall).
  revert Hscan. generalize (decimal_value 0 (String c r)). intros n Hscan.
  destruct c as [[] [] [] [] [] [] [] []];
    try discriminate Hc; try discriminate H0;
    unfold OptParse._parse_int, Py.int;
    cbv -[Py.scan_digits Z.mul Py.count_digits Nat.ltb Py.int_max_str_digits];
    rewrite Hscan;
    (destruct (Nat.ltb Py.int_max_str_digits _); [reflexivity|]);
    rewrite Z.mul_1_l; reflexivity.
Qed.

(** X17: an integer option given a decimal numeral (digits only, the
    first not zero) of at most 4300 digits stores the number the numeral
    denotes: with the other values at their defaults, [--name NUMERAL]
    parses to the defaults with that one field set. A longer numeral is
    refused by the interpreter's [int] and the parse exits with status 2. *)
Theorem X17_integer_option_reads_decimal
  (name : string) (dest : Z -> Options.t -> Options.t) (ds : string) :
  In (name, OptParse.store_int dest) OptParse.option_list ->
  is_decimal ds = true ->
  (String.length ds <= Py.int_max_str_digits ->
   OptParse._parse_int ds = Some (decimal_value 0 ds)
   /\ OptParse.parse_args [name; ds]
      = inr (dest (decimal_value 0 ds) Options.defaults, []))
  /\ (Py.int_max_str_digits < String.length ds ->
      OptParse._parse_int ds = None
      /\ OptParse.parse_args [name; ds] = inl (SystemExit 2)).
Proof.
  intros Hin Hd. pose proof (_parse_int_decimal ds Hd) as Hp.
  assert (Hargs : OptParse.parse_args [name; ds]
                  = match OptParse._parse_int ds with
                    | Some z => inr (dest z Options.defaults, [])
                    | None => inl (SystemExit 2)
                    end).
  { clear Hp. unfold OptParse.option_list in Hin. simpl in Hin.
    repeat (destruct Hin as [Hin|Hin];
            [first [ discriminate Hin
                   | injection Hin as <- <-;
                     unfold OptParse.parse_args;
                     cbn -[OptParse._parse_int];
                     destruct (OptParse._parse_int ds); reflexivity ]|]).
    destruct Hin. }
  split; intros Hlen.
  - apply Nat.ltb_ge in Hlen. rewrite Hlen in Hp.
    split; [exact Hp|]. rewrite Hargs, Hp. reflexivity.
  - apply Nat.ltb_lt in Hlen. rewrite Hlen in Hp.
    split; [exact Hp|]. rewrite Hargs, Hp. reflexivity.
Qed.

Lemma X17_witness :
  In ("--vector-size", OptParse.store_int Options.set_vectSize)
     OptParse.option_list
  /\ is_decimal "50" = true
  /\ String.length "50" <= Py.int_max_str_digits
  /\ decimal_value 0 "50" = 50%Z
  /\ OptParse.parse_args ["--vector-size"; "50"]
     = inr (Options.set_vectSize (decimal_value 0 "50") Options.defaults, []).
Proof.
  assert (Hin : In ("--vector-size", OptParse.store_int Options.set_vectSize)
                  OptParse.option_list).
  { unfold OptParse.option_list. simpl. tauto. }
  assert (Hlen : String.length "50" <= Py.int_max_str_digits).
  { apply Nat.leb_le. reflexivity. }
  split; [exact Hin|]. split; [reflexivity|]. split; [exact Hlen|].
  split; [reflexivity|].
  exact (proj2 (proj1 (X17_integer_option_reads_decimal "--vector-size"
                         Options.set_vectSize "50" Hin eq_refl) Hlen)).
Defined.

(** * Concrete runs of the further properties *)

Lemma X1_witness :
  f_failure Runs.two_sentences = None
  /\ List.concat (corpus (snd (readCorpus Runs.two_sentences Runs.with_corpus)))
     = ["a"; "b"; "a"; "the cat"; "sat"; "dog ran"].
Proof.
  split; [reflexivity|].
  exact (X1_readCorpus_keeps_every_token Runs.two_sentences Runs.with_corpus
           eq_refl).
Defined.

Lemma X2_witness :
  map Py.strip ["  the cat "; String Py.TAB ""; "sat"]
  = map Py.strip ["the cat"; ""; "sat" +n+ ""]
  /\ readCorpus_lines ["  the cat "; String Py.TAB ""; "sat"] []
     = readCorpus_lines ["the cat"; ""; "sat" +n+ ""] [].
Proof.
  split; [reflexivity|].
  exact (proj1 (X2_corpus_depends_on_stripped_lines
                  ["  the cat "; String Py.TAB ""; "sat"]
                  ["the cat"; ""; "sat" +n+ ""] [] eq_refl)).
Defined.

Lemma X3_witness :
  ["a.txt"; "unix.txt"; "b.txt"] <> []
  /\ Forall (is_readable (env MoreRuns.disk)) ["a.txt"; "unix.txt"; "b.txt"]
  /\ corpus (snd (readCorpusFiles ["a.txt"; "unix.txt"; "b.txt"] MoreRuns.disk))
     = [["a"]; ["the cat"; "sat"]; ["dog ran"]; ["b"]]
  /\ trace (snd (readCorpusFiles ["a.txt"; "unix.txt"; "b.txt"] MoreRuns.disk))
     = [ EvOpenRead "a.txt" (Some 3); EvClose 3;
         EvOpenRead "unix.txt" (Some 4); EvClose 4;
         EvOpenRead "b.txt" (Some 5); EvClose 5 ].
Proof.
  assert (Hne : ["a.txt"; "unix.txt"; "b.txt"] <> []) by discriminate.
  assert (Hall : Forall (is_readable (env MoreRuns.disk))
                   ["a.txt"; "unix.txt"; "b.txt"]).
  { repeat constructor; eexists; reflexivity. }
  split; [exact Hne|]. split; [exact Hall|].
  exact (proj2 (X3_readCorpusFiles_reads_files_in_order
                  ["a.txt"; "unix.txt"; "b.txt"] MoreRuns.disk Hne Hall)).
Defined.

Lemma X4_witness :
  Forall (is_readable (env MoreRuns.disk)) ["a.txt"]
  /\ files (env MoreRuns.disk) "missing.txt" = None
  /\ fst (readCorpusFiles (["a.txt"] ++ "missing.txt" :: ["b.txt"]) MoreRuns.disk)
     = inl (OSError "missing.txt")
  /\ corpus (snd (readCorpusFiles (["a.txt"] ++ "missing.txt" :: ["b.txt"])
                    MoreRuns.disk))
     = [["a"]]
  /\ trace (snd (readCorpusFiles (["a.txt"] ++ "missing.txt" :: ["b.txt"])
                   MoreRuns.disk))
     = [EvOpenRead "a.txt" (Some 3); EvClose 3; EvOpenRead "missing.txt" None].
Proof.
  assert (Hall : Forall (is_readable (env MoreRuns.disk)) ["a.txt"]).
  { repeat constructor; eexists; reflexivity. }
  split; [exact Hall|]. split; [reflexivity|].
  exact (X4_readCorpusFiles_stops_at_missing_file ["a.txt"] "missing.txt"
           ["b.txt"] MoreRuns.disk Hall eq_refl).
Defined.

Lemma X5_witness :
  files (env MoreRuns.disk) "unix.txt" = Some (readable MoreRuns.text_unix)
  /\ files (env MoreRuns.disk) "dos.txt"
     = Some (readable (to_crlf MoreRuns.text_unix))
  /\ no_CR MoreRuns.text_unix = true
  /\ corpus (snd (readCorpusFiles ["dos.txt"] MoreRuns.disk))
     = corpus (snd (readCorpusFiles ["unix.txt"] MoreRuns.disk)).
Proof.
  split; [reflexivity|]. split; [reflexivity|]. split; [reflexivity|].
  exact (proj2 (X5_crlf_file_same_corpus "unix.txt" "dos.txt"
                  MoreRuns.text_unix MoreRuns.disk eq_refl eq_refl eq_refl)).
Defined.

Lemma X6_witness :
  failure (stdin (env MoreRuns.from_stdin)) = None
  /\ readCorpusFiles [] MoreRuns.from_stdin
     = (inr tt,
        set_corpus [["the cat"]; [String.append "a" (String Py.CR "b")]]
          MoreRuns.from_stdin).
Proof.
  split; [reflexivity|].
  exact (X6_readCorpusFiles_reads_stdin MoreRuns.from_stdin eq_refl).
Defined.

Lemma X7_witness :
  Forall (fun arg => is_option arg = false) ["a.txt"; "-"; "b.txt"]
  /\ OptParse.parse_args ["a.txt"; "-"; "b.txt"]
     = inr (Options.defaults, ["a.txt"; "-"; "b.txt"]).
Proof.
  assert (H : Forall (fun arg => is_option arg = false) ["a.txt"; "-"; "b.txt"]).
  { repeat constructor. }
  split; [exact H|].
  exact (X7_parse_args_without_options ["a.txt"; "-"; "b.txt"] H).
Defined.

(** A word2vec training adds nothing to the trace; a method with
    "fasttext" and "optimized" adds the run of the external tool. *)
Lemma X9_witness :
  method_has (Args.method (build_args (G := Runs.G0) MoreRuns.options_txt))
    "fasttext"
  && method_has (Args.method (build_args (G := Runs.G0) MoreRuns.options_txt))
       "optimized" = false
  /\ trace (snd (buildVector (G := Runs.G0) (build_args MoreRuns.options_txt)
                   Runs.with_corpus)) = []
  /\ trace (snd (buildVector (G := Runs.G0) Runs.args_optimized
                   Runs.with_corpus))
     = [EvExternal ["ft_model.bin"; "ft_model.vec"]].
Proof.
  split; [reflexivity|]. split.
  - exact (proj2 (proj2 (proj2 (proj2 (proj2
             (X9_buildVector_touches_no_file (G := Runs.G0)
                (build_args MoreRuns.options_txt) Runs.with_corpus)))))
             eq_refl).
  - vm_compute. reflexivity.
Defined.

Lemma X10_witness :
  option_map Py.lower (Some "Word2Vec") = option_map Py.lower (Some "WORD2VEC")
  /\ buildVector (G := Runs.G0)
       (Args.mk 2 0 2 false 2 0%Z 5 5 0%Z 1 (Some "Word2Vec") 3 6 2000000 None)
       Runs.with_corpus
     = buildVector (G := Runs.G0)
         (Args.mk 2 0 2 false 2 0%Z 5 5 0%Z 1 (Some "WORD2VEC") 3 6 2000000 None)
         Runs.with_corpus.
Proof.
  split; [reflexivity|].
  exact (X10_method_is_case_insensitive (G := Runs.G0)
           2 0 2 false 2 0%Z 5 5 0%Z 1 (Some "Word2Vec") (Some "WORD2VEC")
           3 6 2000000 None Runs.with_corpus eq_refl).
Defined.

Lemma X11_witness :
  OptParse.parse_args (argv MoreRuns.env_txt) = inr (MoreRuns.options_txt, [])
  /\ run (G := broken_gensim) (init MoreRuns.env_txt)
     = (inl (LibraryError "training failed"),
        snd (run (G := broken_gensim) (init MoreRuns.env_txt)))
  /\ outputs (trace (snd (run (G := broken_gensim) (init MoreRuns.env_txt))))
     = [].
Proof.
  split; [reflexivity|].
  assert (Hs2 : snd (run (G := broken_gensim) (init MoreRuns.env_txt))
                = snd (buildVector (G := broken_gensim)
                         (build_args MoreRuns.options_txt)
                         (snd (readCorpusFiles [] (init MoreRuns.env_txt)))))
    by reflexivity.
  rewrite Hs2.
  exact (X11_training_error_ends_run_without_output (G := broken_gensim)
           MoreRuns.env_txt MoreRuns.options_txt []
           (snd (readCorpusFiles [] (init MoreRuns.env_txt)))
           (snd (buildVector (G := broken_gensim)
                   (build_args MoreRuns.options_txt)
                   (snd (readCorpusFiles [] (init MoreRuns.env_txt)))))
           (LibraryError "training failed") eq_refl eq_refl eq_refl).
Defined.

Lemma X12_witness :
  OptParse.parse_args (argv MoreRuns.env_json) = inr (MoreRuns.options_json, [])
  /\ Options.json MoreRuns.options_json = Some "v.json"
  /\ Options.txt MoreRuns.options_json = Some "v.txt"
  /\ Py.endswith "v.json" ".gz" = false
  /\ fst (run (G := Runs.G0) (init MoreRuns.env_json))
     = inl (TypeError "write() argument must be str, not bytes")
  /\ outputs (trace (snd (run (G := Runs.G0) (init MoreRuns.env_json))))
     = ["v.json"].
Proof.
  split; [reflexivity|]. split; [reflexivity|]. split; [reflexivity|].
  split; [reflexivity|].
  pose proof (X12_plain_json_path_blocks_the_other_writers (G := Runs.G0)
                MoreRuns.env_json MoreRuns.options_json []
                (snd (readCorpusFiles [] (init MoreRuns.env_json)))
                (snd (buildVector (build_args MoreRuns.options_json)
                        (snd (readCorpusFiles [] (init MoreRuns.env_json)))))
                "v.json" [("the cat", [0%Z; 0%Z])]
                eq_refl eq_refl eq_refl eq_refl eq_refl eq_refl eq_refl) as H.
  split; [exact (proj1 H) | exact (proj1 (proj2 H))].
Defined.

Lemma X13_witness :
  run (G := Runs.G0) (init MoreRuns.env_txt)
  = (inr tt, snd (run (G := Runs.G0) (init MoreRuns.env_txt)))
  /\ outputs (trace (snd (run (G := Runs.G0) (init MoreRuns.env_txt))))
     = ["v.txt"]
  /\ open_handles (snd (run (G := Runs.G0) (init MoreRuns.env_txt))) = [].
Proof.
  assert (Hrun : run (G := Runs.G0) (init MoreRuns.env_txt)
                 = (inr tt, snd (run (G := Runs.G0) (init MoreRuns.env_txt))))
    by (vm_compute; reflexivity).
  split; [exact Hrun|]. split; [vm_compute; reflexivity|].
  exact (X13_normal_run_leaves_no_file_open (G := Runs.G0) MoreRuns.env_txt
           (snd (run (G := Runs.G0) (init MoreRuns.env_txt))) Hrun).
Defined.

Lemma X14_witness :
  writable (env Runs.with_VST) "v.txt" = true
  /\ VST Runs.with_VST = Some [("a", [1%Z; 2%Z])]
  /\ (forall tr, write_fails (env Runs.with_VST) tr = false)
  /\ fst (writeTxt (Some "v.txt") Runs.with_VST) = inr tt
  /\ written_text 3 (trace (snd (writeTxt (Some "v.txt") Runs.with_VST)))
     = String.append "a" (String Py.TAB ("[1, 2]" +n+ "")).
Proof.
  split; [reflexivity|]. split; [reflexivity|].
  split; [intros tr; reflexivity|].
  split.
  - exact (proj1 (X14_writeTxt_writes_one_line_per_entry (G := Runs.G0)
                    "v.txt" Runs.with_VST [("a", [1%Z; 2%Z])]
                    eq_refl eq_refl (fun _ => eq_refl))).
  - reflexivity.
Defined.

Lemma X15_witness :
  vocabulary_dict (G := Runs.G0) MoreRuns.toy_model
  = inr [("a", [1%Z]); ("b", [2%Z])]
  /\ NoDup (map fst [("a", [1%Z]); ("b", [2%Z])])
  /\ (NoDup (wv_vocab_keys (Gensim := Runs.G0) MoreRuns.toy_model) ->
      map fst [("a", [1%Z]); ("b", [2%Z])]
      = wv_vocab_keys (Gensim := Runs.G0) MoreRuns.toy_model).
Proof.
  split; [reflexivity|].
  pose proof (proj1 (X15_vector_space_of_a_model (G := Runs.G0)
                       MoreRuns.toy_model)
                [("a", [1%Z]); ("b", [2%Z])] eq_refl) as H.
  split; [exact (proj1 H) | exact (proj2 (proj2 (proj2 H)))].
Defined.
